(** * Loan / EMI tracker of the bill-reminder backend

    A shallow embedding of [backend/models.py] (class [LoanDetails]) and of
    the routes of [backend/loans.py], followed by the properties of the
    amortization tracker.

    Modelling conventions.
    - Money columns are [db.Float]: they are IEEE doubles, here Rocq's
      primitive [float].  Integer columns are [Z].
    - A JSON number of a request body is modelled by the double it denotes
      (Python's [json] yields an [int] for a literal without fraction or
      exponent; [float()] and [int()] of it agree with the double below
      2^53).  A JSON string carries what Python's [float()] and [int()]
      make of it; of an array or object only emptiness is kept.  The ISO
      start date and the notes arrive already decoded.
    - Python exceptions are values of [exn]; a computation that can raise
      returns a [result].
    - [datetime.utcnow()], [datetime.now()] and the uuid of a new row are
      arguments of the operation that reads them.
    - The bookkeeping columns [created_at] and [updated_at] are written but
      never read by the tracker and are left out. *)

From Stdlib Require Import ZArith Floats Lia.
From stdpp Require Import base option list gmap strings pretty.

Local Open Scope Z_scope.

(** ** Python values and exceptions *)

Inductive exn : Type :=
  | TypeError
  | ValueError
  | OverflowError
  | IntegrityError.

Inductive result (A : Type) : Type :=
  | Ok (a : A)
  | Raise (e : exn).
Arguments Ok {A} a.
Arguments Raise {A} e.

#[export] Instance result_ret : MRet result := λ A a, Ok a.
#[export] Instance result_bind : MBind result := λ A B f m,
  match m with
  | Ok a => f a
  | Raise e => Raise e
  end.
#[export] Instance result_fmap : FMap result := λ A B f m,
  match m with
  | Ok a => Ok (f a)
  | Raise e => Raise e
  end.

(** A decoded JSON value: [null], a boolean, a number, a string or a
    container (array or object).  A string comes with the results of
    Python's [float(s)] and [int(s)]: the two parsers are Python's own and
    are not redefined here, so a request is described by giving their
    results with the text.  Of a container only emptiness is kept: every
    conversion of one raises. *)
Inductive json : Type :=
  | JNull
  | JBool (b : bool)
  | JNum (x : float)
  | JStr (s : string) (as_float : result float) (as_int : result Z)
  | JContainer (empty : bool).

(** [bool(x)] of a Python float: [x != 0.0] (a NaN is truthy, -0.0 is not). *)
Definition truthy_float (x : float) : bool := negb (PrimFloat.eqb x 0%float).

(** [bool(v)] of a decoded JSON value. *)
Definition truthy (v : json) : bool :=
  match v with
  | JNull => false
  | JBool b => b
  | JNum x => truthy_float x
  | JStr s _ _ => negb (String.eqb s "")
  | JContainer empty => negb empty
  end.

(** [float(v)]. *)
Definition py_float (v : json) : result float :=
  match v with
  | JNull => Raise TypeError
  | JBool b => Ok (if b then 1%float else 0%float)
  | JNum x => Ok x
  | JStr _ as_float _ => as_float
  | JContainer _ => Raise TypeError
  end.

(** [int(x)] of a float: truncation towards zero. *)
Definition float_trunc (x : float) : result Z :=
  match Prim2SF x with
  | S754_zero _ => Ok 0
  | S754_infinity _ => Raise OverflowError
  | S754_nan => Raise ValueError
  | S754_finite s m e =>
      let a := Z.shiftl (Z.pos m) e in Ok (if s then - a else a)
  end.

(** [int(v)]. *)
Definition py_int (v : json) : result Z :=
  match v with
  | JNull => Raise TypeError
  | JBool b => Ok (if b then 1 else 0)
  | JNum x => float_trunc x
  | JStr _ _ as_int => as_int
  | JContainer _ => Raise TypeError
  end.

(** The values [float + v] accepts: numbers and booleans. *)
Definition is_number (v : json) : bool :=
  match v with
  | JBool _ | JNum _ => true
  | _ => false
  end.

(** The operand [v] of [x + v] for a float [x]; a string, a container or
    None makes the addition raise TypeError. *)
Definition py_number (v : json) : result float :=
  match v with
  | JBool b => Ok (if b then 1%float else 0%float)
  | JNum x => Ok x
  | _ => Raise TypeError
  end.

(** [a or b] on a JSON value with a float default. *)
Definition py_or (a : json) (b : float) : json :=
  if truthy a then a else JNum b.

(** [x + v] for a float [x]. *)
Definition float_add_json (x : float) (v : json) : result float :=
  y ← py_number v; Ok (PrimFloat.add x y).

(** ** Calendar arithmetic: [datetime] and [dateutil.relativedelta] *)

Module Dateutil.

(** A [datetime]: the calendar date and the time of day in microseconds. *)
Record datetime : Type := mk_datetime {
  year : Z;
  month : Z;
  day : Z;
  time_of_day : Z
}.

#[export] Instance datetime_eq_dec : EqDecision datetime.
Proof. solve_decision. Defined.

Definition MINYEAR : Z := 1.
Definition MAXYEAR : Z := 9999.

(** [calendar.isleap]. *)
Definition isleap (y : Z) : bool :=
  (y mod 4 =? 0) && (negb (y mod 100 =? 0) || (y mod 400 =? 0)).

(** [calendar.monthrange(y, m)[1]]: the number of days of a month. *)
Definition days_in_month (y m : Z) : Z :=
  match m with
  | 2 => if isleap y then 29 else 28
  | 4 | 6 | 9 | 11 => 30
  | _ => 31
  end.

(** [relativedelta(months=n)] after [_fix]: whole years and the months
    left, both with the sign of [n]. *)
Definition relativedelta (n : Z) : Z * Z :=
  if 11 <? Z.abs n then
    let s := Z.sgn n in
    ((n * s / 12) * s, ((n * s) mod 12) * s)
  else (0, n).

(** [dt + relativedelta(months=n)]: the month is moved, the day clipped to
    the length of the target month; [datetime.replace] raises ValueError
    outside the years 1..9999. *)
Definition add_months (dt : datetime) (n : Z) : result datetime :=
  let '(years, months) := relativedelta n in
  let y := year dt + years in
  let m := month dt + months in
  let '(y, m) :=
    if months =? 0 then (y, m)
    else if 12 <? m then (y + 1, m - 12)
    else if m <? 1 then (y - 1, m + 12)
    else (y, m) in
  let d := Z.min (days_in_month y m) (day dt) in
  if (MINYEAR <=? y) && (y <=? MAXYEAR)
  then Ok (mk_datetime y m d (time_of_day dt))
  else Raise ValueError.

End Dateutil.
Export Dateutil.

(** ** models.py *)

Module Bill.

Record t : Type := mk {
  id : string;
  user_id : string;
  name : string;
  amount : float;
  due_date : datetime;
  category : string;
  frequency : string;
  is_paid : bool;
  notes : option string;
  enable_whatsapp : bool;
  enable_call : bool;
  enable_sms : bool;
  enable_local_notification : bool
}.

End Bill.

(** One entry of [payment_history]. *)
Record payment_record : Type := mk_payment_record {
  pr_installment_no : Z;
  pr_amount : json;
  pr_date : datetime;
  pr_remaining : float
}.

(** The dictionary [make_payment] returns. *)
Record payment_result : Type := mk_payment_result {
  installment_no : Z;
  amount_paid : json;
  res_amount_remaining : float;
  is_completed : bool
}.

Module LoanDetails.

(** [payment_history] is the decoded JSON text: the empty list stands for
    a column that is NULL or holds no entry. [is_active] is the value of
    the column once the row is stored (column default True). *)
Record t : Type := mk {
  id : string;
  bill_id : string;
  total_amount : float;
  monthly_payment : float;
  interest_rate : float;
  total_installments : Z;
  installments_paid : Z;
  total_paid : float;
  amount_remaining : option float;
  loan_start_date : datetime;
  expected_completion_date : option datetime;
  last_payment_date : option datetime;
  next_payment_date : option datetime;
  payment_history : list payment_record;
  is_active : bool;
  notes : option string
}.

(** [LoanDetails.calculate_loan_details]. *)
Definition calculate_loan_details (self : t) : result t :=
  if truthy_float (total_amount self) && truthy_float (monthly_payment self)
  then
    let remaining := PrimFloat.sub (total_amount self) (total_paid self) in
    completion ←
      match expected_completion_date self with
      | Some d => Ok (Some d)
      | None =>
          if bool_decide (total_installments self ≠ 0)
          then Some <$> add_months (loan_start_date self)
                                   (total_installments self)
          else Ok None
      end;
    next ← add_months (loan_start_date self) (installments_paid self + 1);
    Ok {| id := id self;
          bill_id := bill_id self;
          total_amount := total_amount self;
          monthly_payment := monthly_payment self;
          interest_rate := interest_rate self;
          total_installments := total_installments self;
          installments_paid := installments_paid self;
          total_paid := total_paid self;
          amount_remaining := Some remaining;
          loan_start_date := loan_start_date self;
          expected_completion_date := completion;
          last_payment_date := last_payment_date self;
          next_payment_date := Some next;
          payment_history := payment_history self;
          is_active := is_active self;
          notes := notes self |}
  else Ok self.

(** [LoanDetails.make_payment]: [amount] is [JNull] when the argument is
    omitted or None, [now] is [datetime.utcnow()]. *)
Definition make_payment (self : t) (amount : json) (now : datetime)
  : result (t * payment_result) :=
  let payment_amount := py_or amount (monthly_payment self) in
  let paid_count := installments_paid self + 1 in
  paid ← float_add_json (total_paid self) payment_amount;
  let remaining := PrimFloat.sub (total_amount self) paid in
  let payment := mk_payment_record paid_count payment_amount now remaining in
  let history := payment_history self ++ [payment] in
  next ← add_months (loan_start_date self) (paid_count + 1);
  let active :=
    if (total_installments self <=? paid_count)
       || PrimFloat.leb remaining 0%float
    then false else is_active self in
  Ok ({| id := id self;
         bill_id := bill_id self;
         total_amount := total_amount self;
         monthly_payment := monthly_payment self;
         interest_rate := interest_rate self;
         total_installments := total_installments self;
         installments_paid := paid_count;
         total_paid := paid;
         amount_remaining := Some remaining;
         loan_start_date := loan_start_date self;
         expected_completion_date := expected_completion_date self;
         last_payment_date := Some now;
         next_payment_date := Some next;
         payment_history := history;
         is_active := active;
         notes := notes self |},
      mk_payment_result paid_count payment_amount remaining (negb active)).

End LoanDetails.

(** The test [self.total_amount and self.monthly_payment] that guards the
    body of [calculate_loan_details]. *)
Definition has_amounts (l : LoanDetails.t) : bool :=
  truthy_float (LoanDetails.total_amount l)
  && truthy_float (LoanDetails.monthly_payment l).

(** [datetime._days_before_year]: days before January 1st of year [y]. *)
Definition days_before_year (y : Z) : Z :=
  let y := y - 1 in y * 365 + y / 4 - y / 100 + y / 400.

(** [datetime._DAYS_BEFORE_MONTH]. *)
Definition DAYS_BEFORE_MONTH (m : Z) : Z :=
  match m with
  | 1 => 0 | 2 => 31 | 3 => 59 | 4 => 90 | 5 => 120 | 6 => 151
  | 7 => 181 | 8 => 212 | 9 => 243 | 10 => 273 | 11 => 304 | 12 => 334
  | _ => -1
  end.

(** [datetime._days_before_month]. *)
Definition days_before_month (y m : Z) : Z :=
  DAYS_BEFORE_MONTH m + (if (2 <? m) && isleap y then 1 else 0).

(** [d.date().toordinal()]. *)
Definition toordinal (d : datetime) : Z :=
  days_before_year (year d) + days_before_month (year d) (month d) + day d.

(** What every [datetime] object satisfies. *)
Definition valid_date (d : datetime) : Prop :=
  MINYEAR ≤ year d ≤ MAXYEAR
  ∧ 1 ≤ month d ≤ 12
  ∧ 1 ≤ day d ≤ days_in_month (year d) (month d).

(** The calendar date of [d1] is before the calendar date of [d2]. *)
Definition date_before (d1 d2 : datetime) : Prop :=
  year d1 < year d2
  ∨ (year d1 = year d2
     ∧ (month d1 < month d2 ∨ (month d1 = month d2 ∧ day d1 < day d2))).

(** [Bill.days_until_due], with [now] for [datetime.now()]: the days from
    today's date to the due date (a stored bill always has a due date, so
    the branch that answers None is not reached). *)
Definition days_until_due (b : Bill.t) (now : datetime) : Z :=
  toordinal (Bill.due_date b) - toordinal now.

(** ** loans.py *)

(** The two tables the routes touch. Bills are keyed by their primary key,
    loans by [bill_id] (the column is declared unique). *)
Record db : Type := mk_db {
  bills : gmap string Bill.t;
  loans : gmap string LoanDetails.t
}.

(** Body of a JSON response. *)
Inductive body : Type :=
  | Message (message : string)
  | Failure (message : string) (error : exn)
  | LoanCreated (loan : LoanDetails.t)
  | PaymentRecorded (payment_details : payment_result)
                    (loan_status : LoanDetails.t).

(** A response: the HTTP status and the body. *)
Definition response : Type := Z * body.

(** Body of [POST /bills/<bill_id>/loan]. *)
Record loan_request : Type := mk_loan_request {
  req_fields : gmap string json;
  req_loan_start_date : option datetime;
  req_notes : option string
}.

(** Body of [PUT /bills/<bill_id>/loan]; [upd_notes] is [None] when the key
    is absent. *)
Record loan_update : Type := mk_loan_update {
  upd_fields : gmap string json;
  upd_notes : option (option string)
}.

(** [Bill.query.filter_by(id=bill_id, user_id=user_id).first()]. *)
Definition find_bill (s : db) (bill_id user_id : string) : option Bill.t :=
  match bills s !! bill_id with
  | Some b => if bool_decide (Bill.user_id b = user_id) then Some b else None
  | None => None
  end.

(** [data[field]]: KeyError is not reachable where it is used. *)
Definition item (data : gmap string json) (field : string) : json :=
  default JNull (data !! field).

(** [data.get(field, 0)]. *)
Definition get_or_zero (data : gmap string json) (field : string) : json :=
  default (JNum 0%float) (data !! field).

Definition required : list string :=
  ["total_amount"; "monthly_payment"; "total_installments"].

(** [field not in data or not data[field]]. *)
Definition is_missing (data : gmap string json) (field : string) : bool :=
  match data !! field with
  | None => true
  | Some v => negb (truthy v)
  end.

Definition missing (data : gmap string json) : list string :=
  filter (λ field, is_missing data field = true) required.

(** [", ".join(fields)]. *)
Fixpoint join_comma (fields : list string) : string :=
  match fields with
  | [] => ""
  | [f] => f
  | f :: rest => f +:+ ", " +:+ join_comma rest
  end.

(** The constructor of [LoanDetails]: it stores the columns and calls
    [calculate_loan_details]. *)
Definition new_loan (new_id bill_id : string) (total_amount monthly_payment
    interest_rate : float) (total_installments installments_paid : Z)
    (total_paid : float) (loan_start_date : datetime) (notes : option string)
  : result LoanDetails.t :=
  LoanDetails.calculate_loan_details
    {| LoanDetails.id := new_id;
       LoanDetails.bill_id := bill_id;
       LoanDetails.total_amount := total_amount;
       LoanDetails.monthly_payment := monthly_payment;
       LoanDetails.interest_rate := interest_rate;
       LoanDetails.total_installments := total_installments;
       LoanDetails.installments_paid := installments_paid;
       LoanDetails.total_paid := total_paid;
       LoanDetails.amount_remaining := None;
       LoanDetails.loan_start_date := loan_start_date;
       LoanDetails.expected_completion_date := None;
       LoanDetails.last_payment_date := None;
       LoanDetails.next_payment_date := None;
       LoanDetails.payment_history := [];
       LoanDetails.is_active := true;
       LoanDetails.notes := notes |}.

(** [bill.amount = ...; bill.frequency = 'monthly']. *)
Definition attach_loan (b : Bill.t) (monthly_payment : float) : Bill.t :=
  {| Bill.id := Bill.id b;
     Bill.user_id := Bill.user_id b;
     Bill.name := Bill.name b;
     Bill.amount := monthly_payment;
     Bill.due_date := Bill.due_date b;
     Bill.category := Bill.category b;
     Bill.frequency := "monthly";
     Bill.is_paid := Bill.is_paid b;
     Bill.notes := Bill.notes b;
     Bill.enable_whatsapp := Bill.enable_whatsapp b;
     Bill.enable_call := Bill.enable_call b;
     Bill.enable_sms := Bill.enable_sms b;
     Bill.enable_local_notification := Bill.enable_local_notification b |}.

(** The [try] block of [create_loan_details]. *)
Definition build_loan (bill_id : string) (data : loan_request)
    (now : datetime) (new_id : string) : result LoanDetails.t :=
  let loan_start_date := default now (req_loan_start_date data) in
  let fields := req_fields data in
  total_amount ← py_float (item fields "total_amount");
  monthly_payment ← py_float (item fields "monthly_payment");
  interest_rate ← py_float (get_or_zero fields "interest_rate");
  total_installments ← py_int (item fields "total_installments");
  installments_paid ← py_int (get_or_zero fields "installments_paid");
  total_paid ← py_float (get_or_zero fields "total_paid");
  loan ← new_loan new_id bill_id total_amount monthly_payment interest_rate
                  total_installments installments_paid total_paid
                  loan_start_date (req_notes data);
  LoanDetails.calculate_loan_details loan.

(** [create_loan_details]: [POST /bills/<bill_id>/loan]. *)
Definition create_loan_details (s : db) (user_id bill_id : string)
    (data : loan_request) (now : datetime) (new_id : string)
  : db * response :=
  match find_bill s bill_id user_id with
  | None => (s, (404, Message "Bill not found"))
  | Some bill =>
      match loans s !! bill_id with
      | Some _ =>
          (s, (400, Message "Loan details already exist for this bill"))
      | None =>
          match missing (req_fields data) with
          | (_ :: _) as fields =>
              (s, (400, Message ("Missing required fields: "
                                 +:+ join_comma fields)))
          | [] =>
              match build_loan bill_id data now new_id with
              | Ok loan =>
                  let bill' :=
                    attach_loan bill (LoanDetails.monthly_payment loan) in
                  (mk_db (<[bill_id := bill']> (bills s))
                         (<[bill_id := loan]> (loans s)),
                   (201, LoanCreated loan))
              | Raise e =>
                  (s, (500, Failure "Failed to create loan details" e))
              end
          end
      end
  end.

(** [bill.is_paid = True]. *)
Definition mark_paid (b : Bill.t) : Bill.t :=
  {| Bill.id := Bill.id b;
     Bill.user_id := Bill.user_id b;
     Bill.name := Bill.name b;
     Bill.amount := Bill.amount b;
     Bill.due_date := Bill.due_date b;
     Bill.category := Bill.category b;
     Bill.frequency := Bill.frequency b;
     Bill.is_paid := true;
     Bill.notes := Bill.notes b;
     Bill.enable_whatsapp := Bill.enable_whatsapp b;
     Bill.enable_call := Bill.enable_call b;
     Bill.enable_sms := Bill.enable_sms b;
     Bill.enable_local_notification := Bill.enable_local_notification b |}.

(** The filter [user_id=..., name=..., due_date=...] of the query for next
    month's bill. *)
Definition same_period (user_id name : string) (due : datetime)
    (b : Bill.t) : Prop :=
  Bill.user_id b = user_id ∧ Bill.name b = name ∧ Bill.due_date b = due.

#[export] Instance same_period_dec user_id name due b :
  Decision (same_period user_id name due b).
Proof. unfold same_period. apply _. Defined.

(** [Bill.query.filter_by(...).first()] is not None. *)
Definition bill_exists (bs : gmap string Bill.t) (user_id name : string)
    (due : datetime) : bool :=
  bool_decide (map_Exists (λ _ b, same_period user_id name due b) bs).

(** The note of the generated bill: [f"EMI #{paid + 1} of {total}"]. *)
Definition emi_note (loan : LoanDetails.t) : string :=
  "EMI #" +:+ pretty (LoanDetails.installments_paid loan + 1)
  +:+ " of " +:+ pretty (LoanDetails.total_installments loan).

(** Next month's bill as [record_loan_payment] builds it. *)
Definition successor (user_id : string) (bill : Bill.t)
    (loan : LoanDetails.t) (next_due_date : datetime) (new_id : string)
  : Bill.t :=
  {| Bill.id := new_id;
     Bill.user_id := user_id;
     Bill.name := Bill.name bill;
     Bill.amount := LoanDetails.monthly_payment loan;
     Bill.due_date := next_due_date;
     Bill.category := Bill.category bill;
     Bill.frequency := Bill.frequency bill;
     Bill.is_paid := false;
     Bill.notes := Some (emi_note loan);
     Bill.enable_whatsapp := Bill.enable_whatsapp bill;
     Bill.enable_call := Bill.enable_call bill;
     Bill.enable_sms := Bill.enable_sms bill;
     Bill.enable_local_notification := Bill.enable_local_notification bill |}.

(** The block of [record_loan_payment] that creates next month's bill
    (loans.py, lines 176-203). The result is the bill table and the bill
    added to the session, if any; a primary key already in use makes the
    commit fail. *)
Definition advance_recurring_bill (bs : gmap string Bill.t)
    (user_id : string) (bill : Bill.t) (loan : LoanDetails.t)
    (new_id : string) : result (gmap string Bill.t * option Bill.t) :=
  if LoanDetails.is_active loan
     && bool_decide (Bill.frequency bill = "monthly")
  then
    next_due_date ← add_months (Bill.due_date bill) 1;
    if bill_exists bs user_id (Bill.name bill) next_due_date
    then Ok (bs, None)
    else
      let next_bill := successor user_id bill loan next_due_date new_id in
      match bs !! new_id with
      | None => Ok (<[new_id := next_bill]> bs, Some next_bill)
      | Some _ => Raise IntegrityError
      end
  else Ok (bs, None).

(** The [try] block of [record_loan_payment]. *)
Definition pay_and_advance (s : db) (user_id bill_id : string)
    (bill : Bill.t) (loan : LoanDetails.t) (payment_amount : json)
    (now : datetime) (new_id : string)
  : result (db * payment_result * LoanDetails.t) :=
  '(loan', result) ← LoanDetails.make_payment loan payment_amount now;
  let bill' := mark_paid bill in
  '(bs, _) ← advance_recurring_bill (<[bill_id := bill']> (bills s))
                                    user_id bill' loan' new_id;
  Ok (mk_db bs (<[bill_id := loan']> (loans s)), result, loan').

(** [record_loan_payment]: [POST /bills/<bill_id>/loan/payment]. An absent
    or empty body is the empty dictionary. *)
Definition record_loan_payment (s : db) (user_id bill_id : string)
    (data : gmap string json) (now : datetime) (new_id : string)
  : db * response :=
  match find_bill s bill_id user_id with
  | None => (s, (404, Message "Bill not found"))
  | Some bill =>
      match loans s !! bill_id with
      | None => (s, (404, Message "No loan details found for this bill"))
      | Some loan =>
          if negb (LoanDetails.is_active loan)
          then (s, (400, Message "This loan is already completed"))
          else
            let payment_amount := default JNull (data !! "amount") in
            match pay_and_advance s user_id bill_id bill loan
                                  payment_amount now new_id with
            | Ok (s', result, loan') =>
                (s', (200, PaymentRecorded result loan'))
            | Raise e => (s, (500, Failure "Failed to record payment" e))
            end
      end
  end.

(** [loan.monthly_payment = x]. *)
Definition with_monthly_payment (x : float) (l : LoanDetails.t)
  : LoanDetails.t :=
  {| LoanDetails.id := LoanDetails.id l;
     LoanDetails.bill_id := LoanDetails.bill_id l;
     LoanDetails.total_amount := LoanDetails.total_amount l;
     LoanDetails.monthly_payment := x;
     LoanDetails.interest_rate := LoanDetails.interest_rate l;
     LoanDetails.total_installments := LoanDetails.total_installments l;
     LoanDetails.installments_paid := LoanDetails.installments_paid l;
     LoanDetails.total_paid := LoanDetails.total_paid l;
     LoanDetails.amount_remaining := LoanDetails.amount_remaining l;
     LoanDetails.loan_start_date := LoanDetails.loan_start_date l;
     LoanDetails.expected_completion_date :=
       LoanDetails.expected_completion_date l;
     LoanDetails.last_payment_date := LoanDetails.last_payment_date l;
     LoanDetails.next_payment_date := LoanDetails.next_payment_date l;
     LoanDetails.payment_history := LoanDetails.payment_history l;
     LoanDetails.is_active := LoanDetails.is_active l;
     LoanDetails.notes := LoanDetails.notes l |}.

(** [loan.interest_rate = x]. *)
Definition with_interest_rate (x : float) (l : LoanDetails.t)
  : LoanDetails.t :=
  {| LoanDetails.id := LoanDetails.id l;
     LoanDetails.bill_id := LoanDetails.bill_id l;
     LoanDetails.total_amount := LoanDetails.total_amount l;
     LoanDetails.monthly_payment := LoanDetails.monthly_payment l;
     LoanDetails.interest_rate := x;
     LoanDetails.total_installments := LoanDetails.total_installments l;
     LoanDetails.installments_paid := LoanDetails.installments_paid l;
     LoanDetails.total_paid := LoanDetails.total_paid l;
     LoanDetails.amount_remaining := LoanDetails.amount_remaining l;
     LoanDetails.loan_start_date := LoanDetails.loan_start_date l;
     LoanDetails.expected_completion_date :=
       LoanDetails.expected_completion_date l;
     LoanDetails.last_payment_date := LoanDetails.last_payment_date l;
     LoanDetails.next_payment_date := LoanDetails.next_payment_date l;
     LoanDetails.payment_history := LoanDetails.payment_history l;
     LoanDetails.is_active := LoanDetails.is_active l;
     LoanDetails.notes := LoanDetails.notes l |}.

(** [loan.notes = x]. *)
Definition with_notes (x : option string) (l : LoanDetails.t)
  : LoanDetails.t :=
  {| LoanDetails.id := LoanDetails.id l;
     LoanDetails.bill_id := LoanDetails.bill_id l;
     LoanDetails.total_amount := LoanDetails.total_amount l;
     LoanDetails.monthly_payment := LoanDetails.monthly_payment l;
     LoanDetails.interest_rate := LoanDetails.interest_rate l;
     LoanDetails.total_installments := LoanDetails.total_installments l;
     LoanDetails.installments_paid := LoanDetails.installments_paid l;
     LoanDetails.total_paid := LoanDetails.total_paid l;
     LoanDetails.amount_remaining := LoanDetails.amount_remaining l;
     LoanDetails.loan_start_date := LoanDetails.loan_start_date l;
     LoanDetails.expected_completion_date :=
       LoanDetails.expected_completion_date l;
     LoanDetails.last_payment_date := LoanDetails.last_payment_date l;
     LoanDetails.next_payment_date := LoanDetails.next_payment_date l;
     LoanDetails.payment_history := LoanDetails.payment_history l;
     LoanDetails.is_active := LoanDetails.is_active l;
     LoanDetails.notes := x |}.

(** [bill.amount = x]. *)
Definition with_amount (x : float) (b : Bill.t) : Bill.t :=
  {| Bill.id := Bill.id b;
     Bill.user_id := Bill.user_id b;
     Bill.name := Bill.name b;
     Bill.amount := x;
     Bill.due_date := Bill.due_date b;
     Bill.category := Bill.category b;
     Bill.frequency := Bill.frequency b;
     Bill.is_paid := Bill.is_paid b;
     Bill.notes := Bill.notes b;
     Bill.enable_whatsapp := Bill.enable_whatsapp b;
     Bill.enable_call := Bill.enable_call b;
     Bill.enable_sms := Bill.enable_sms b;
     Bill.enable_local_notification := Bill.enable_local_notification b |}.

(** The [try] block of [update_loan_details]. *)
Definition apply_update (bill : Bill.t) (loan : LoanDetails.t)
    (data : loan_update) : result (Bill.t * LoanDetails.t) :=
  '(bill, loan) ←
    match upd_fields data !! "monthly_payment" with
    | Some v =>
        x ← py_float v; Ok (with_amount x bill, with_monthly_payment x loan)
    | None => Ok (bill, loan)
    end;
  loan ←
    match upd_fields data !! "interest_rate" with
    | Some v => x ← py_float v; Ok (with_interest_rate x loan)
    | None => Ok loan
    end;
  let loan :=
    match upd_notes data with
    | Some n => with_notes n loan
    | None => loan
    end in
  loan ← LoanDetails.calculate_loan_details loan;
  Ok (bill, loan).

(** [update_loan_details]: [PUT /bills/<bill_id>/loan]. *)
Definition update_loan_details (s : db) (user_id bill_id : string)
    (data : loan_update) : db * response :=
  match find_bill s bill_id user_id with
  | None => (s, (404, Message "Bill not found"))
  | Some bill =>
      match loans s !! bill_id with
      | None => (s, (404, Message "No loan details found for this bill"))
      | Some loan =>
          match apply_update bill loan data with
          | Ok (bill', loan') =>
              (mk_db (<[bill_id := bill']> (bills s))
                     (<[bill_id := loan']> (loans s)),
               (200, Message "Loan details updated successfully"))
          | Raise e =>
              (s, (500, Failure "Failed to update loan details" e))
          end
      end
  end.

(** ** The operations of the tracker as a transition system *)

(** The spec's operations, each with the arguments of the route that
    implements it: initialize is [create_loan_details], recompute is
    [update_loan_details], record_payment is [record_loan_payment];
    advance_recurring_bill is the block of [record_loan_payment] run on a
    stored bill and its loan. *)
Inductive op : Type :=
  | Initialize (user_id bill_id : string) (data : loan_request)
               (now : datetime) (new_id : string)
  | Recompute (user_id bill_id : string) (data : loan_update)
  | RecordPayment (user_id bill_id : string) (data : gmap string json)
                  (now : datetime) (new_id : string)
  | AdvanceRecurringBill (user_id bill_id new_id : string).

Definition step (s : db) (o : op) : db :=
  match o with
  | Initialize u b data now new_id =>
      (create_loan_details s u b data now new_id).1
  | Recompute u b data => (update_loan_details s u b data).1
  | RecordPayment u b data now new_id =>
      (record_loan_payment s u b data now new_id).1
  | AdvanceRecurringBill u b new_id =>
      match find_bill s b u, loans s !! b with
      | Some bill, Some loan =>
          match advance_recurring_bill (bills s) u bill loan new_id with
          | Ok (bs, _) => mk_db bs (loans s)
          | Raise _ => s
          end
      | _, _ => s
      end
  end.

Definition run (s : db) (ops : list op) : db := foldl step s ops.

(** A loan is within its schedule when the count of payments lies between
    0 and [total_installments] and, while the loan is active, below it. *)
Definition within_schedule (l : LoanDetails.t) : Prop :=
  0 ≤ LoanDetails.installments_paid l ≤ LoanDetails.total_installments l
  ∧ (LoanDetails.is_active l = true →
     LoanDetails.installments_paid l < LoanDetails.total_installments l).

(** The number a history entry stands for: [float(entry['amount'])]. *)
Definition record_value (p : payment_record) : float :=
  match py_float (pr_amount p) with
  | Ok x => x
  | Raise _ => 0%float
  end.

(** [total_paid] once the entries [added] have been paid, in order, on top
    of [paid]. *)
Definition paid_after (paid : float) (added : list payment_record) : float :=
  foldl (λ acc p, PrimFloat.add acc (record_value p)) paid added.

(** The columns only a payment writes, and the ones nothing writes. *)
Definition same_ledger (l l' : LoanDetails.t) : Prop :=
  LoanDetails.total_amount l' = LoanDetails.total_amount l
  ∧ LoanDetails.total_installments l' = LoanDetails.total_installments l
  ∧ LoanDetails.installments_paid l' = LoanDetails.installments_paid l
  ∧ LoanDetails.total_paid l' = LoanDetails.total_paid l
  ∧ LoanDetails.loan_start_date l' = LoanDetails.loan_start_date l
  ∧ LoanDetails.last_payment_date l' = LoanDetails.last_payment_date l
  ∧ LoanDetails.payment_history l' = LoanDetails.payment_history l
  ∧ LoanDetails.is_active l' = LoanDetails.is_active l.

(** The derived columns agree with the columns they are derived from. *)
Definition derived_in_step (l : LoanDetails.t) : Prop :=
  LoanDetails.amount_remaining l
  = Some (PrimFloat.sub (LoanDetails.total_amount l)
                        (LoanDetails.total_paid l))
  ∧ ∃ next,
      add_months (LoanDetails.loan_start_date l)
                 (LoanDetails.installments_paid l + 1) = Ok next
      ∧ LoanDetails.next_payment_date l = Some next.

(** What an operation other than a payment may do to a stored loan. *)
Definition kept (l l' : LoanDetails.t) : Prop :=
  same_ledger l l'
  ∧ (∀ d, LoanDetails.expected_completion_date l = Some d →
          LoanDetails.expected_completion_date l' = Some d)
  ∧ (derived_in_step l → derived_in_step l').

(** Every stored loan has its bill, and the bill shows the loan's monthly
    payment as its amount. *)
Definition bills_show_loans (s : db) : Prop :=
  ∀ k l, loans s !! k = Some l →
         ∃ bill, bills s !! k = Some bill
                 ∧ Bill.amount bill = LoanDetails.monthly_payment l.

(** ** A worked example: the car loan of the specification *)

Definition jan_2025 : datetime := mk_datetime 2025 1 1 0.

Definition car_bill : Bill.t :=
  {| Bill.id := "b1";
     Bill.user_id := "u1";
     Bill.name := "Car loan";
     Bill.amount := 50%float;
     Bill.due_date := mk_datetime 2025 1 5 0;
     Bill.category := "loan";
     Bill.frequency := "once";
     Bill.is_paid := false;
     Bill.notes := None;
     Bill.enable_whatsapp := true;
     Bill.enable_call := false;
     Bill.enable_sms := false;
     Bill.enable_local_notification := true |}.

(** One bill, no loan yet. *)
Definition store0 : db := mk_db (<["b1" := car_bill]> ∅) ∅.

(** The body [{total_amount: t, monthly_payment: m, total_installments: n,
    installments_paid: k, total_paid: p, loan_start_date: 2025-01-01}]. *)
Definition emi_request (t m n k p : float) : loan_request :=
  mk_loan_request
    (<["total_amount" := JNum t]>
       (<["monthly_payment" := JNum m]>
          (<["total_installments" := JNum n]>
             (<["installments_paid" := JNum k]>
                (<["total_paid" := JNum p]> ∅)))))
    (Some jan_2025) None.

(** [store0] after a loan of 1200 in 12 installments of 100 is attached. *)
Definition store1 : db :=
  (create_loan_details store0 "u1" "b1"
     (emi_request 1200 100 12 0 0) jan_2025 "L1").1.

(** The loan that [store1] holds for the car bill. *)
Definition loan1 : LoanDetails.t :=
  {| LoanDetails.id := "L1";
     LoanDetails.bill_id := "b1";
     LoanDetails.total_amount := 1200%float;
     LoanDetails.monthly_payment := 100%float;
     LoanDetails.interest_rate := 0%float;
     LoanDetails.total_installments := 12;
     LoanDetails.installments_paid := 0;
     LoanDetails.total_paid := 0%float;
     LoanDetails.amount_remaining := Some 1200%float;
     LoanDetails.loan_start_date := jan_2025;
     LoanDetails.expected_completion_date := Some (mk_datetime 2026 1 1 0);
     LoanDetails.last_payment_date := None;
     LoanDetails.next_payment_date := Some (mk_datetime 2025 2 1 0);
     LoanDetails.payment_history := [];
     LoanDetails.is_active := true;
     LoanDetails.notes := None |}.

(** The body [{amount: a}] of a payment. *)
Definition pay (a : float) : gmap string json := <["amount" := JNum a]> ∅.

(** The loan stored for the car bill. *)
Definition car_loan (s : db) : option LoanDetails.t := loans s !! "b1".

(** [store1] after the whole principal is paid at once: the loan is
    completed. *)
Definition store2 : db :=
  (record_loan_payment store1 "u1" "b1" (pay 1200) jan_2025 "b2").1.

(** The completed loan that [store2] holds, and the receipt of the payment
    that completed it. *)
Definition loan2 : LoanDetails.t :=
  {| LoanDetails.id := "L1";
     LoanDetails.bill_id := "b1";
     LoanDetails.total_amount := 1200%float;
     LoanDetails.monthly_payment := 100%float;
     LoanDetails.interest_rate := 0%float;
     LoanDetails.total_installments := 12;
     LoanDetails.installments_paid := 1;
     LoanDetails.total_paid := 1200%float;
     LoanDetails.amount_remaining := Some 0%float;
     LoanDetails.loan_start_date := jan_2025;
     LoanDetails.expected_completion_date := Some (mk_datetime 2026 1 1 0);
     LoanDetails.last_payment_date := Some jan_2025;
     LoanDetails.next_payment_date := Some (mk_datetime 2025 3 1 0);
     LoanDetails.payment_history :=
       [mk_payment_record 1 (JNum 1200%float) jan_2025 0%float];
     LoanDetails.is_active := false;
     LoanDetails.notes := None |}.

Definition receipt2 : payment_result :=
  mk_payment_result 1 (JNum 1200%float) 0%float true.

(** The body [{monthly_payment: m}] of an update. *)
Definition set_monthly (m : float) : loan_update :=
  mk_loan_update (<["monthly_payment" := JNum m]> ∅) None.

(** [store1] after the monthly payment is edited to 0. *)
Definition store_free : db :=
  (update_loan_details store1 "u1" "b1" (set_monthly 0)).1.

(** A loan row whose monthly payment is 0, as the constructor is handed it:
    nothing derived yet. *)
Definition free_loan : LoanDetails.t :=
  {| LoanDetails.id := "L9";
     LoanDetails.bill_id := "b9";
     LoanDetails.total_amount := 1000%float;
     LoanDetails.monthly_payment := 0%float;
     LoanDetails.interest_rate := 0%float;
     LoanDetails.total_installments := 10;
     LoanDetails.installments_paid := 0;
     LoanDetails.total_paid := 0%float;
     LoanDetails.amount_remaining := None;
     LoanDetails.loan_start_date := jan_2025;
     LoanDetails.expected_completion_date := None;
     LoanDetails.last_payment_date := None;
     LoanDetails.next_payment_date := None;
     LoanDetails.payment_history := [];
     LoanDetails.is_active := true;
     LoanDetails.notes := None |}.

(** February's bill for the car loan, as generated from January's. *)
Definition next_car_bill : Bill.t :=
  successor "u1" (attach_loan car_bill 100%float) loan1
            (mk_datetime 2025 2 5 0) "b2".

(** [store0] after a loan of 1200 in 12 installments is attached with [k]
    installments reported as already paid. *)
Definition store_paid (k : float) : db :=
  (create_loan_details store0 "u1" "b1"
     (emi_request 1200 100 12 k 0) jan_2025 "L1").1.

(** * Properties *)

(** ** Floats, JSON scalars and the error monad *)

Lemma float_ltb_leb (x y : float) :
  PrimFloat.ltb x y = true → PrimFloat.leb x y = true.
Proof.
  rewrite ltb_spec, leb_spec. unfold SFltb, SFleb.
  destruct (SFcompare _ _) as [[]|]; congruence.
Qed.

Lemma py_number_float (v : json) (x : float) :
  py_number v = Ok x → py_float v = Ok x.
Proof. by destruct v. Qed.



Lemma bind_ok {A B} (m : result A) (f : A → result B) (b : B) :
  m ≫= f = Ok b → ∃ a, m = Ok a ∧ f a = Ok b.
Proof. destruct m; simpl; [eauto | discriminate]. Qed.

Lemma find_bill_lookup (s : db) (b u : string) (bill : Bill.t) :
  find_bill s b u = Some bill → bills s !! b = Some bill.
Proof.
  unfold find_bill. destruct (bills s !! b); [|discriminate].
  case_bool_decide; congruence.
Qed.

(** ** [make_payment] *)

(** What a payment that goes through does to each column. *)
Lemma make_payment_inv (l l' : LoanDetails.t) (amount : json)
    (now : datetime) (r : payment_result) :
  LoanDetails.make_payment l amount now = Ok (l', r) →
  ∃ x next,
    py_float (py_or amount (LoanDetails.monthly_payment l)) = Ok x
    ∧ add_months (LoanDetails.loan_start_date l)
                 (LoanDetails.installments_paid l + 1 + 1) = Ok next
    ∧ LoanDetails.installments_paid l' = LoanDetails.installments_paid l + 1
    ∧ LoanDetails.total_paid l' = PrimFloat.add (LoanDetails.total_paid l) x
    ∧ LoanDetails.amount_remaining l'
      = Some (PrimFloat.sub (LoanDetails.total_amount l)
                            (LoanDetails.total_paid l'))
    ∧ LoanDetails.last_payment_date l' = Some now
    ∧ LoanDetails.next_payment_date l' = Some next
    ∧ LoanDetails.payment_history l'
      = LoanDetails.payment_history l
        ++ [mk_payment_record
              (LoanDetails.installments_paid l')
              (py_or amount (LoanDetails.monthly_payment l)) now
              (PrimFloat.sub (LoanDetails.total_amount l)
                             (LoanDetails.total_paid l'))]
    ∧ LoanDetails.is_active l'
      = (if (LoanDetails.total_installments l
             <=? LoanDetails.installments_paid l')
            || PrimFloat.leb (PrimFloat.sub (LoanDetails.total_amount l)
                                            (LoanDetails.total_paid l'))
                             0%float
         then false else LoanDetails.is_active l)
    ∧ r = mk_payment_result
            (LoanDetails.installments_paid l')
            (py_or amount (LoanDetails.monthly_payment l))
            (PrimFloat.sub (LoanDetails.total_amount l)
                           (LoanDetails.total_paid l'))
            (negb (LoanDetails.is_active l')).
Proof.
  unfold LoanDetails.make_payment, float_add_json. intros H.
  apply bind_ok in H as (paid & Hpaid & H).
  apply bind_ok in Hpaid as (x & Hx & Hpaid).
  apply bind_ok in H as (next & Hnext & H).
  injection Hpaid as <-. injection H as <- <-.
  apply py_number_float in Hx.
  exists x, next. simpl. repeat split; assumption.
Qed.

(** The columns a payment leaves alone. *)
Lemma make_payment_frame (l l' : LoanDetails.t) (amount : json)
    (now : datetime) (r : payment_result) :
  LoanDetails.make_payment l amount now = Ok (l', r) →
  LoanDetails.id l' = LoanDetails.id l
  ∧ LoanDetails.bill_id l' = LoanDetails.bill_id l
  ∧ LoanDetails.total_amount l' = LoanDetails.total_amount l
  ∧ LoanDetails.monthly_payment l' = LoanDetails.monthly_payment l
  ∧ LoanDetails.interest_rate l' = LoanDetails.interest_rate l
  ∧ LoanDetails.total_installments l' = LoanDetails.total_installments l
  ∧ LoanDetails.loan_start_date l' = LoanDetails.loan_start_date l
  ∧ LoanDetails.expected_completion_date l'
    = LoanDetails.expected_completion_date l
  ∧ LoanDetails.notes l' = LoanDetails.notes l.
Proof.
  unfold LoanDetails.make_payment. intros H.
  apply bind_ok in H as (paid & _ & H).
  apply bind_ok in H as (next & _ & H).
  injection H as <- <-. simpl. repeat split.
Qed.



(** ** Next month's bill *)

Lemma bill_exists_true (bs : gmap string Bill.t) (u n : string)
    (due : datetime) :
  bill_exists bs u n due = true
  ↔ ∃ k b, bs !! k = Some b ∧ same_period u n due b.
Proof.
  unfold bill_exists. rewrite bool_decide_eq_true. reflexivity.
Qed.

Lemma advance_inv (bs bs' : gmap string Bill.t) (u : string) (bill : Bill.t)
    (loan : LoanDetails.t) (new_id : string) (created : option Bill.t) :
  advance_recurring_bill bs u bill loan new_id = Ok (bs', created) →
  (created = None ∧ bs' = bs)
  ∨ (∃ due,
        created = Some (successor u bill loan due new_id)
        ∧ LoanDetails.is_active loan = true
        ∧ Bill.frequency bill = "monthly"
        ∧ add_months (Bill.due_date bill) 1 = Ok due
        ∧ bill_exists bs u (Bill.name bill) due = false
        ∧ bs !! new_id = None
        ∧ bs' = <[new_id := successor u bill loan due new_id]> bs).
Proof.
  unfold advance_recurring_bill.
  destruct (LoanDetails.is_active loan) eqn:Ha; simpl;
    [|intros [= <- <-]; by left].
  case_bool_decide as Hf; simpl; [|intros [= <- <-]; by left].
  intros H. apply bind_ok in H as (due & Hdue & H).
  destruct (bill_exists bs u (Bill.name bill) due) eqn:He;
    [injection H as <- <-; by left|].
  destruct (bs !! new_id) eqn:Hk; [discriminate|].
  injection H as <- <-. right. exists due. by repeat split.
Qed.


(** ** [record_loan_payment] *)

(** A call answered with 200 ran [make_payment] on the stored, active loan
    and stored its outcome. *)
Lemma record_loan_payment_200 (s s' : db) (u b : string)
    (data : gmap string json) (now : datetime) (new_id : string)
    (bd : body) :
  record_loan_payment s u b data now new_id = (s', (200, bd)) →
  ∃ bill l l' r created,
    find_bill s b u = Some bill
    ∧ loans s !! b = Some l
    ∧ LoanDetails.is_active l = true
    ∧ LoanDetails.make_payment l (default JNull (data !! "amount")) now
      = Ok (l', r)
    ∧ advance_recurring_bill (<[b := mark_paid bill]> (bills s)) u
                             (mark_paid bill) l' new_id
      = Ok (bills s', created)
    ∧ loans s' = <[b := l']> (loans s)
    ∧ bd = PaymentRecorded r l'.
Proof.
  unfold record_loan_payment.
  destruct (find_bill s b u) as [bill|]; [|intros [=]].
  destruct (loans s !! b) as [l|]; [|intros [=]].
  destruct (LoanDetails.is_active l) eqn:Ha; simpl; [|intros [=]].
  destruct (pay_and_advance _ _ _ _ _ _ _ _) as [[[s1 r] l']|e] eqn:Hp;
    [|intros [=]].
  intros [= <- <-]. unfold pay_and_advance in Hp.
  apply bind_ok in Hp as ([l1 r1] & Hm & Hp).
  apply bind_ok in Hp as ([bs created] & Hadv & Hp).
  injection Hp as <- <- <-.
  exists bill, l, l1, r1, created. by repeat split.
Qed.

(** Whatever the answer, the loan table is untouched or holds the outcome
    of [make_payment] on the stored, active loan. *)
Lemma record_loan_payment_loans (s : db) (u b : string)
    (data : gmap string json) (now : datetime) (new_id : string) :
  let s' := (record_loan_payment s u b data now new_id).1 in
  loans s' = loans s
  ∨ ∃ l l' r,
      loans s !! b = Some l
      ∧ LoanDetails.is_active l = true
      ∧ LoanDetails.make_payment l (default JNull (data !! "amount")) now
        = Ok (l', r)
      ∧ loans s' = <[b := l']> (loans s).
Proof.
  destruct (record_loan_payment s u b data now new_id) as [s' [c bd]] eqn:H.
  simpl. destruct (decide (c = 200)) as [->|Hc].
  - apply record_loan_payment_200 in H
      as (bill & l & l' & r & created & _ & Hl & Ha & Hm & _ & Hs & _).
    right. by exists l, l', r.
  - left. revert H. unfold record_loan_payment.
    destruct (find_bill s b u); [|by intros [= <- _ _]].
    destruct (loans s !! b); [|by intros [= <- _ _]].
    destruct (negb _); [by intros [= <- _ _]|].
    destruct (pay_and_advance _ _ _ _ _ _ _ _) as [[[s1 r] l']|e];
      [|by intros [= <- _ _]].
    intros [= _ <- _]. done.
Qed.

(** The run of the specification: eleven default payments leave the car
    loan active with 100 to pay and the next payment due on 2026-01-01; the
    twelfth completes it. *)
Example car_loan_schedule :
  (∃ l, car_loan (run store1 (replicate 11 (RecordPayment "u1" "b1" ∅
                                              jan_2025 "b2"))) = Some l
        ∧ LoanDetails.installments_paid l = 11
        ∧ LoanDetails.amount_remaining l = Some 100%float
        ∧ LoanDetails.is_active l = true
        ∧ LoanDetails.next_payment_date l = Some (mk_datetime 2026 1 1 0))
  ∧ (∃ l, car_loan (run store1 (replicate 12 (RecordPayment "u1" "b1" ∅
                                                jan_2025 "b2"))) = Some l
          ∧ LoanDetails.installments_paid l = 12
          ∧ LoanDetails.amount_remaining l = Some 0%float
          ∧ LoanDetails.is_active l = false).
Proof. split; eexists; (split; [vm_compute; reflexivity|]); by vm_compute. Qed.

(** ** C1: the effect of a recorded payment *)




(** ** C2: completion is detected right after each payment *)

(** C2: after every recorded payment the stored loan is inactive exactly
    when [installments_paid >= total_installments] or
    [amount_remaining <= 0]; and paying 1200 at once on the fresh
    12-installment loan of 1200 gives [installments_paid = 1],
    [amount_remaining = 0] and [is_active = false]. *)
Theorem C2_completion_equivalence :
  (∀ (s s' : db) (u b : string) (data : gmap string json) (now : datetime)
     (new_id : string) (r : payment_result) (l' : LoanDetails.t),
      record_loan_payment s u b data now new_id
      = (s', (200, PaymentRecorded r l')) →
      loans s' !! b = Some l'
      ∧ ∃ remaining,
          LoanDetails.amount_remaining l' = Some remaining
          ∧ (LoanDetails.is_active l' = false
             ↔ LoanDetails.total_installments l'
                 ≤ LoanDetails.installments_paid l'
               ∨ PrimFloat.leb remaining 0%float = true))
  ∧ car_loan store1 = Some loan1
  ∧ match record_loan_payment store1 "u1" "b1" (pay 1200) jan_2025 "b2" with
    | (s', (200, PaymentRecorded r l')) =>
        car_loan s' = Some l'
        ∧ LoanDetails.installments_paid l' = 1
        ∧ LoanDetails.amount_remaining l' = Some 0%float
        ∧ LoanDetails.is_active l' = false
    | _ => False
    end.
Proof.
  split; [|split; [vm_compute; reflexivity | vm_compute; repeat split]].
  intros s s' u b data now new_id r l' H.
  apply record_loan_payment_200 in H
    as (bill & l & l1 & r1 & created & _ & _ & Ha & Hm & _ & Hs & Hbd).
  injection Hbd as <- <-.
  split; [rewrite Hs; apply lookup_insert_eq|].
  destruct (make_payment_inv _ _ _ _ _ Hm)
    as (x & next & _ & _ & _ & _ & Hrem & _ & _ & _ & Hact & _).
  destruct (make_payment_frame _ _ _ _ _ Hm)
    as (_ & _ & _ & _ & _ & Hti & _).
  eexists. split; [exact Hrem|].
  rewrite Hact, Ha, Hti.
  destruct (_ <=? _) eqn:Hle; simpl.
  - apply Z.leb_le in Hle. tauto.
  - apply Z.leb_gt in Hle. destruct (PrimFloat.leb _ _); split; try done.
    + tauto.
    + intros [?|?]; [lia | done].
Qed.

(** C2 at work: the payment that turns [store1] into [store2]. *)
Lemma C2_completion_equivalence_witness :
  loans store2 !! "b1" = Some loan2
  ∧ ∃ remaining,
      LoanDetails.amount_remaining loan2 = Some remaining
      ∧ (LoanDetails.is_active loan2 = false
         ↔ LoanDetails.total_installments loan2
             ≤ LoanDetails.installments_paid loan2
           ∨ PrimFloat.leb remaining 0%float = true).
Proof.
  apply (proj1 C2_completion_equivalence store1 store2 "u1" "b1" (pay 1200)
           jan_2025 "b2" receipt2 loan2).
  vm_compute. reflexivity.
Defined.

(** ** C6: a completed loan takes no payment *)

(** C6: for every stored loan with [is_active = false],
    [record_loan_payment] answers 400 "This loan is already completed" and
    hands back the store it was given, so no column of the loan (nor
    anything else) is changed. *)
Theorem C6_completed_loan_rejected (s : db) (u b : string)
    (data : gmap string json) (now : datetime) (new_id : string)
    (bill : Bill.t) (l : LoanDetails.t) :
  find_bill s b u = Some bill →
  loans s !! b = Some l →
  LoanDetails.is_active l = false →
  record_loan_payment s u b data now new_id
  = (s, (400, Message "This loan is already completed"))
  ∧ loans (record_loan_payment s u b data now new_id).1 !! b = Some l.
Proof.
  intros Hfind Hl Ha.
  assert (record_loan_payment s u b data now new_id
          = (s, (400, Message "This loan is already completed"))) as H.
  { unfold record_loan_payment. by rewrite Hfind, Hl, Ha. }
  split; [exact H|]. by rewrite H.
Qed.

(** C6 at work: a further payment on the completed car loan. *)
Lemma C6_completed_loan_rejected_witness :
  record_loan_payment store2 "u1" "b1" (pay 100) jan_2025 "b3"
  = (store2, (400, Message "This loan is already completed"))
  ∧ loans (record_loan_payment store2 "u1" "b1" (pay 100) jan_2025 "b3").1
    !! "b1" = Some loan2.
Proof.
  apply (C6_completed_loan_rejected store2 "u1" "b1" (pay 100) jan_2025 "b3"
           (mark_paid (attach_loan car_bill 100%float)) loan2);
    vm_compute; reflexivity.
Defined.

(** ** C10: a falsy amount counts as omitted *)

(** C10, as stated, fails in its last clause: once the monthly payment has
    been edited to 0, a payment of 0 is recorded. *)
Lemma C10_zero_payment_recorded :
  match record_loan_payment store_free "u1" "b1" (pay 0) jan_2025 "b2" with
  | (s', (200, PaymentRecorded r l')) =>
      amount_paid r = JNum 0%float
      ∧ LoanDetails.installments_paid l' = 1
      ∧ LoanDetails.total_paid l' = 0%float
      ∧ LoanDetails.payment_history l'
        = [mk_payment_record 1 (JNum 0%float) jan_2025 1200%float]
  | _ => False
  end.
Proof. vm_compute. repeat split. Qed.

(** C10 (amended): a request whose amount is 0, false or null is answered
    exactly as the request without the amount; a payment made with such an
    amount records [monthly_payment] and adds it to [total_paid]; whatever
    the amount, the recorded amount is zero only when [monthly_payment] is
    zero. *)
Theorem C10_falsy_amount_is_omitted (a : json) :
  truthy a = false →
  (∀ (s : db) (u b : string) (data : gmap string json) (now : datetime)
     (new_id : string),
      record_loan_payment s u b (<["amount" := a]> data) now new_id
      = record_loan_payment s u b (delete "amount" data) now new_id)
  ∧ (∀ (l l' : LoanDetails.t) (now : datetime) (r : payment_result),
      LoanDetails.make_payment l a now = Ok (l', r) →
      LoanDetails.make_payment l JNull now = Ok (l', r)
      ∧ amount_paid r = JNum (LoanDetails.monthly_payment l)
      ∧ LoanDetails.total_paid l'
        = PrimFloat.add (LoanDetails.total_paid l)
                        (LoanDetails.monthly_payment l))
  ∧ (∀ (l l' : LoanDetails.t) (any : json) (now : datetime)
       (r : payment_result),
      LoanDetails.make_payment l any now = Ok (l', r) →
      truthy (amount_paid r) = false →
      truthy_float (LoanDetails.monthly_payment l) = false).
Proof.
  intros Ha. split; [|split].
  - intros s u b data now new_id. unfold record_loan_payment.
    rewrite lookup_insert_eq, lookup_delete_eq. simpl.
    assert (∀ l, LoanDetails.make_payment l a now
                 = LoanDetails.make_payment l JNull now) as Heq.
    { intros l. unfold LoanDetails.make_payment, py_or. by rewrite Ha. }
    destruct (find_bill s b u); [|done].
    destruct (loans s !! b); [|done].
    destruct (negb _); [done|].
    unfold pay_and_advance. by rewrite Heq.
  - intros l l' now r Hm.
    assert (LoanDetails.make_payment l JNull now = Ok (l', r)) as Hm'.
    { revert Hm. unfold LoanDetails.make_payment, py_or. by rewrite Ha. }
    split; [exact Hm'|].
    destruct (make_payment_inv _ _ _ _ _ Hm')
      as (x & next & Hx & _ & _ & Hpaid & _ & _ & _ & _ & _ & Hr).
    simpl in Hx. injection Hx as <-. subst r. simpl. by split.
  - intros l l' any now r Hm Hz.
    destruct (make_payment_inv _ _ _ _ _ Hm)
      as (x & next & _ & _ & _ & _ & _ & _ & _ & _ & _ & Hr).
    subst r. simpl in Hz. unfold py_or in Hz.
    destruct (truthy any) eqn:Hany; [congruence | exact Hz].
Qed.

(** C10 at work: an explicit 0 on the fresh car loan records 100. *)
Lemma C10_falsy_amount_is_omitted_witness :
  record_loan_payment store1 "u1" "b1" (pay 0) jan_2025 "b2"
  = record_loan_payment store1 "u1" "b1" ∅ jan_2025 "b2".
Proof.
  exact (proj1 (C10_falsy_amount_is_omitted (JNum 0%float) eq_refl)
           store1 "u1" "b1" ∅ jan_2025 "b2").
Defined.

(** ** [calculate_loan_details] *)

Lemma calculate_skipped (l : LoanDetails.t) :
  has_amounts l = false → LoanDetails.calculate_loan_details l = Ok l.
Proof.
  unfold has_amounts, LoanDetails.calculate_loan_details. by intros ->.
Qed.

(** The columns [calculate_loan_details] never writes. *)
Lemma calculate_frame (l l' : LoanDetails.t) :
  LoanDetails.calculate_loan_details l = Ok l' →
  LoanDetails.id l' = LoanDetails.id l
  ∧ LoanDetails.bill_id l' = LoanDetails.bill_id l
  ∧ LoanDetails.total_amount l' = LoanDetails.total_amount l
  ∧ LoanDetails.monthly_payment l' = LoanDetails.monthly_payment l
  ∧ LoanDetails.interest_rate l' = LoanDetails.interest_rate l
  ∧ LoanDetails.total_installments l' = LoanDetails.total_installments l
  ∧ LoanDetails.installments_paid l' = LoanDetails.installments_paid l
  ∧ LoanDetails.total_paid l' = LoanDetails.total_paid l
  ∧ LoanDetails.loan_start_date l' = LoanDetails.loan_start_date l
  ∧ LoanDetails.last_payment_date l' = LoanDetails.last_payment_date l
  ∧ LoanDetails.payment_history l' = LoanDetails.payment_history l
  ∧ LoanDetails.is_active l' = LoanDetails.is_active l
  ∧ LoanDetails.notes l' = LoanDetails.notes l.
Proof.
  unfold LoanDetails.calculate_loan_details.
  destruct (_ && _); [|intros [= <-]; repeat split].
  intros H. apply bind_ok in H as (c & _ & H).
  apply bind_ok in H as (n & _ & H).
  injection H as <-. simpl. repeat split.
Qed.

(** The columns it derives, when the guard lets it. *)
Lemma calculate_derived (l l' : LoanDetails.t) :
  LoanDetails.calculate_loan_details l = Ok l' →
  has_amounts l = true →
  LoanDetails.amount_remaining l'
  = Some (PrimFloat.sub (LoanDetails.total_amount l)
                        (LoanDetails.total_paid l))
  ∧ (∃ next,
        add_months (LoanDetails.loan_start_date l)
                   (LoanDetails.installments_paid l + 1) = Ok next
        ∧ LoanDetails.next_payment_date l' = Some next)
  ∧ match LoanDetails.expected_completion_date l with
    | Some d => LoanDetails.expected_completion_date l' = Some d
    | None =>
        if bool_decide (LoanDetails.total_installments l ≠ 0)
        then ∃ d, add_months (LoanDetails.loan_start_date l)
                             (LoanDetails.total_installments l) = Ok d
                  ∧ LoanDetails.expected_completion_date l' = Some d
        else LoanDetails.expected_completion_date l' = None
    end.
Proof.
  unfold has_amounts, LoanDetails.calculate_loan_details. intros H Hg.
  rewrite Hg in H. apply bind_ok in H as (c & Hc & H).
  apply bind_ok in H as (n & Hn & H).
  injection H as <-. simpl. split; [done|]. split; [eauto|].
  destruct (LoanDetails.expected_completion_date l) as [d|].
  - by injection Hc as <-.
  - case_bool_decide.
    + destruct (add_months _ _) as [d|] eqn:Hd; [|discriminate].
      injection Hc as <-. eauto.
    + by injection Hc as <-.
Qed.

(** Running it on its own outcome changes nothing. *)
Lemma calculate_fixpoint (l l' : LoanDetails.t) :
  LoanDetails.calculate_loan_details l = Ok l' →
  LoanDetails.calculate_loan_details l' = Ok l'.
Proof.
  intros H. destruct (has_amounts l) eqn:Hg.
  - revert H. unfold has_amounts in Hg.
    unfold LoanDetails.calculate_loan_details at 1. rewrite Hg.
    intros H. apply bind_ok in H as (c & Hc & H).
    apply bind_ok in H as (n & Hn & H). injection H as <-.
    unfold LoanDetails.calculate_loan_details.
    cbn -[andb truthy_float add_months bool_decide].
    rewrite Hg, Hn. destruct c as [d|]; [done|].
    destruct (LoanDetails.expected_completion_date l); [discriminate|].
    case_bool_decide; [|done].
    destruct (add_months _ (LoanDetails.total_installments l));
      discriminate.
  - rewrite (calculate_skipped l Hg) in H. injection H as <-.
    by apply calculate_skipped.
Qed.

(** ** C8: recompute *)

(** C8, as stated, fails: recompute re-derives nothing for a loan whose
    monthly payment is 0. The row below is what the constructor leaves
    (it runs the same computation), and recompute leaves it as it is:
    no [amount_remaining], no [next_payment_date]. *)
Lemma C8_nothing_derived_without_monthly_payment :
  new_loan "L9" "b9" 1000 0 0 10 0 0 jan_2025 None = Ok free_loan
  ∧ LoanDetails.calculate_loan_details free_loan = Ok free_loan
  ∧ LoanDetails.amount_remaining free_loan = None
  ∧ LoanDetails.next_payment_date free_loan = None
  ∧ LoanDetails.expected_completion_date free_loan = None.
Proof. vm_compute. repeat split. Qed.

(** C8 (amended): [calculate_loan_details] is a function of the loan alone
    and is idempotent; when [total_amount] and [monthly_payment] are both
    non-zero it re-derives [amount_remaining] and [next_payment_date], and
    otherwise it changes nothing; it sets [expected_completion_date] (the
    start date plus [total_installments] months) only when that is unset,
    and a set [expected_completion_date] is changed neither by recompute
    nor by a payment. *)
Theorem C8_recompute_idempotent (l : LoanDetails.t) :
  LoanDetails.calculate_loan_details l
    ≫= LoanDetails.calculate_loan_details
  = LoanDetails.calculate_loan_details l
  ∧ (has_amounts l = false → LoanDetails.calculate_loan_details l = Ok l)
  ∧ (∀ l', LoanDetails.calculate_loan_details l = Ok l' →
       (has_amounts l = true →
        LoanDetails.amount_remaining l'
        = Some (PrimFloat.sub (LoanDetails.total_amount l')
                              (LoanDetails.total_paid l'))
        ∧ ∃ next,
            add_months (LoanDetails.loan_start_date l')
                       (LoanDetails.installments_paid l' + 1) = Ok next
            ∧ LoanDetails.next_payment_date l' = Some next)
       ∧ (∀ d, LoanDetails.expected_completion_date l = Some d →
               LoanDetails.expected_completion_date l' = Some d)
       ∧ (LoanDetails.expected_completion_date l = None →
          LoanDetails.expected_completion_date l' = None
          ∨ ∃ d, add_months (LoanDetails.loan_start_date l)
                            (LoanDetails.total_installments l) = Ok d
                 ∧ LoanDetails.expected_completion_date l' = Some d))
  ∧ (∀ amount now l' r,
       LoanDetails.make_payment l amount now = Ok (l', r) →
       LoanDetails.expected_completion_date l'
       = LoanDetails.expected_completion_date l).
Proof.
  split; [|split; [apply calculate_skipped|split]].
  - destruct (LoanDetails.calculate_loan_details l) as [l'|e] eqn:H;
      [|done].
    simpl. exact (calculate_fixpoint l l' H).
  - intros l' H.
    destruct (calculate_frame _ _ H)
      as (_ & _ & Hta & _ & _ & _ & Hip & Htp & Hst & _).
    rewrite Hta, Hip, Htp, Hst.
    split; [|split].
    + intros Hg. destruct (calculate_derived _ _ H Hg) as (? & ? & _).
      by split.
    + intros d Hd. destruct (has_amounts l) eqn:Hg.
      * destruct (calculate_derived _ _ H Hg) as (_ & _ & He).
        by rewrite Hd in He.
      * rewrite (calculate_skipped l Hg) in H. by injection H as <-.
    + intros Hd. destruct (has_amounts l) eqn:Hg.
      * destruct (calculate_derived _ _ H Hg) as (_ & _ & He).
        rewrite Hd in He. case_bool_decide; [by right | by left].
      * rewrite (calculate_skipped l Hg) in H. injection H as <-.
        by left.
  - intros amount now l' r H.
    by destruct (make_payment_frame _ _ _ _ _ H)
      as (_ & _ & _ & _ & _ & _ & _ & ? & _).
Qed.

(** C8 at work: recompute on the fresh car loan. *)
Lemma C8_recompute_idempotent_witness :
  LoanDetails.calculate_loan_details loan1 = Ok loan1
  ∧ LoanDetails.amount_remaining loan1 = Some 1200%float
  ∧ LoanDetails.expected_completion_date loan1
    = Some (mk_datetime 2026 1 1 0).
Proof.
  assert (LoanDetails.calculate_loan_details loan1 = Ok loan1) as H
    by (vm_compute; reflexivity).
  destruct (C8_recompute_idempotent loan1) as (_ & _ & Hd & _).
  destruct (Hd loan1 H) as (Hrem & Hset & _).
  split; [exact H|]. split; [|exact (Hset _ eq_refl)].
  exact (proj1 (Hrem eq_refl)).
Defined.

(** ** [create_loan_details] *)

Lemma missing_nil (data : gmap string json) :
  missing data = []
  ↔ is_missing data "total_amount" = false
    ∧ is_missing data "monthly_payment" = false
    ∧ is_missing data "total_installments" = false.
Proof.
  unfold missing, required. rewrite !filter_cons, filter_nil.
  destruct (is_missing data "total_amount"),
           (is_missing data "monthly_payment"),
           (is_missing data "total_installments");
    repeat case_decide; try done;
    split; try done; intros (? & ? & ?); done.
Qed.

(** A field that is not missing is present and truthy. *)
Lemma not_missing_item (data : gmap string json) (field : string) :
  is_missing data field = false
  ↔ ∃ v, data !! field = Some v ∧ truthy v = true.
Proof.
  unfold is_missing. destruct (data !! field) as [v|].
  - rewrite negb_false_iff. split; [eauto|]. by intros (? & [= <-] & ?).
  - split; [done|]. by intros (? & ? & _).
Qed.

(** A required field sent as a number is stored as a non-zero float. *)
Lemma number_field_float (data : gmap string json) (field : string)
    (x : float) :
  is_missing data field = false →
  is_number (item data field) = true →
  py_float (item data field) = Ok x →
  truthy_float x = true.
Proof.
  unfold is_missing, item.
  destruct (data !! field) as [v|]; [|done]. simpl.
  rewrite negb_false_iff.
  destruct v as [|[]|y| |]; simpl; intros Ht Hn Hx; try done.
  - by injection Hx as <-.
  - by injection Hx as <-.
Qed.

(** What the [try] block stores when it does not raise. *)
Lemma build_loan_inv (b : string) (data : loan_request) (now : datetime)
    (new_id : string) (l : LoanDetails.t) :
  build_loan b data now new_id = Ok l →
  py_float (item (req_fields data) "total_amount")
  = Ok (LoanDetails.total_amount l)
  ∧ py_float (item (req_fields data) "monthly_payment")
    = Ok (LoanDetails.monthly_payment l)
  ∧ py_int (item (req_fields data) "total_installments")
    = Ok (LoanDetails.total_installments l)
  ∧ py_int (get_or_zero (req_fields data) "installments_paid")
    = Ok (LoanDetails.installments_paid l)
  ∧ py_float (get_or_zero (req_fields data) "total_paid")
    = Ok (LoanDetails.total_paid l)
  ∧ LoanDetails.loan_start_date l = default now (req_loan_start_date data)
  ∧ LoanDetails.is_active l = true
  ∧ LoanDetails.payment_history l = []
  ∧ LoanDetails.last_payment_date l = None
  ∧ if has_amounts l
    then LoanDetails.amount_remaining l
         = Some (PrimFloat.sub (LoanDetails.total_amount l)
                               (LoanDetails.total_paid l))
    else LoanDetails.amount_remaining l = None
         ∧ LoanDetails.next_payment_date l = None
         ∧ LoanDetails.expected_completion_date l = None.
Proof.
  unfold build_loan. intros H.
  apply bind_ok in H as (ta & Hta & H).
  apply bind_ok in H as (mp & Hmp & H).
  apply bind_ok in H as (ir & Hir & H).
  apply bind_ok in H as (ti & Hti & H).
  apply bind_ok in H as (ip & Hip & H).
  apply bind_ok in H as (tp & Htp & H).
  apply bind_ok in H as (l0 & Hl0 & H).
  unfold new_loan in Hl0.
  destruct (calculate_frame _ _ Hl0)
    as (_ & _ & Ea & Eb & _ & Ec & Ed & Ee & Ef & Eg & Eh & Ei & _).
  destruct (calculate_frame _ _ H)
    as (_ & _ & Fa & Fb & _ & Fc & Fd & Fe & Ff & Fg & Fh & Fi & _).
  simpl in Ea, Eb, Ec, Ed, Ee, Ef, Eg, Eh, Ei.
  assert (has_amounts l = has_amounts l0) as Hg
    by (unfold has_amounts; by rewrite Fa, Fb).
  rewrite Hg.
  destruct (has_amounts l0) eqn:Hg0.
  - destruct (calculate_derived _ _ H Hg0) as (Hrem & _).
    rewrite Fa, Fb, Fc, Fd, Fe, Ff, Fg, Fh, Fi, Hrem.
    rewrite Ea, Eb, Ec, Ed, Ee, Ef, Eg, Eh, Ei.
    by repeat split.
  - rewrite (calculate_skipped _ Hg0) in H. injection H as <-.
    rewrite calculate_skipped in Hl0
      by (revert Hg0; unfold has_amounts; by rewrite Ea, Eb).
    injection Hl0 as <-. simpl. by repeat split.
Qed.

(** Amounts that pass the presence check as numbers are stored non-zero. *)
Lemma build_loan_numbers (b : string) (data : loan_request) (now : datetime)
    (new_id : string) (l : LoanDetails.t) :
  missing (req_fields data) = [] →
  build_loan b data now new_id = Ok l →
  is_number (item (req_fields data) "total_amount") = true →
  is_number (item (req_fields data) "monthly_payment") = true →
  has_amounts l = true.
Proof.
  intros Hmiss Hb Na Nm.
  destruct (build_loan_inv _ _ _ _ _ Hb) as (Hta & Hmp & _).
  apply missing_nil in Hmiss as (Ha & Hm & _).
  unfold has_amounts.
  by rewrite (number_field_float _ _ _ Ha Na Hta),
             (number_field_float _ _ _ Hm Nm Hmp).
Qed.

(** A call answered with 201 found the bill without a loan, found every
    required field present and truthy, and stored the loan it built. *)
Lemma create_loan_details_201 (s s' : db) (u b : string)
    (data : loan_request) (now : datetime) (new_id : string) (bd : body) :
  create_loan_details s u b data now new_id = (s', (201, bd)) →
  ∃ bill l,
    find_bill s b u = Some bill
    ∧ loans s !! b = None
    ∧ missing (req_fields data) = []
    ∧ build_loan b data now new_id = Ok l
    ∧ LoanDetails.is_active l = true
    ∧ bd = LoanCreated l
    ∧ loans s' = <[b := l]> (loans s).
Proof.
  unfold create_loan_details.
  destruct (find_bill s b u) as [bill|]; [|intros [=]].
  destruct (loans s !! b) as [l0|] eqn:Hl; [intros [=]|].
  destruct (missing (req_fields data)) eqn:Hmiss; [|intros [=]].
  destruct (build_loan b data now new_id) as [l|e] eqn:Hb; [|intros [=]].
  intros [= <- <-]. exists bill, l. repeat split; try done.
  by destruct (build_loan_inv _ _ _ _ _ Hb)
    as (_ & _ & _ & _ & _ & _ & ? & _).
Qed.

(** Whatever the answer, the loan table is untouched or got one new row
    under a key that had none. *)
Lemma create_loan_details_loans (s : db) (u b : string)
    (data : loan_request) (now : datetime) (new_id : string) :
  let s' := (create_loan_details s u b data now new_id).1 in
  loans s' = loans s
  ∨ ∃ l, loans s !! b = None ∧ loans s' = <[b := l]> (loans s).
Proof.
  unfold create_loan_details.
  destruct (find_bill s b u) as [bill|]; [|by left].
  destruct (loans s !! b) as [l0|] eqn:Hl; [by left|].
  destruct (missing (req_fields data)); [|by left].
  destruct (build_loan b data now new_id) as [l|e]; [|by left].
  right. by exists l.
Qed.

(** ** C3: what initialize rejects *)

(** C3, as stated, fails: negative values are not rejected. A request with
    [total_amount = -1200], [monthly_payment = -100] and
    [total_installments = -12] is answered 201 and stored as sent. *)
Lemma C3_negative_values_accepted :
  match create_loan_details store0 "u1" "b1"
          (emi_request (-1200) (-100) (-12) 0 0) jan_2025 "L1" with
  | (s', (201, LoanCreated l)) =>
      loans s' !! "b1" = Some l
      ∧ LoanDetails.total_amount l = (-1200)%float
      ∧ LoanDetails.monthly_payment l = (-100)%float
      ∧ LoanDetails.total_installments l = -12
  | _ => False
  end.
Proof. vm_compute. repeat split. Qed.

(** C3 (amended): for a bill of the caller, [create_loan_details] answers
    400 "Loan details already exist for this bill" whenever the bill has a
    loan, whatever the fields; when it has none, it answers 400 "Missing
    required fields: ..." whenever one of [total_amount],
    [monthly_payment], [total_installments] is absent, null, false or
    zero; in both cases nothing is stored. It answers 201 only when all
    three are present and non-zero; their sign is not looked at. *)
Theorem C3_initialize_rejections (s : db) (u b : string)
    (data : loan_request) (now : datetime) (new_id : string)
    (bill : Bill.t) :
  find_bill s b u = Some bill →
  (∀ l, loans s !! b = Some l →
        create_loan_details s u b data now new_id
        = (s, (400, Message "Loan details already exist for this bill")))
  ∧ (loans s !! b = None →
     ∀ field, field ∈ required →
       is_missing (req_fields data) field = true →
       create_loan_details s u b data now new_id
       = (s, (400, Message ("Missing required fields: "
                            +:+ join_comma (missing (req_fields data))))))
  ∧ (∀ s' bd,
       create_loan_details s u b data now new_id = (s', (201, bd)) →
       loans s !! b = None
       ∧ ∀ field, field ∈ required →
           ∃ v, req_fields data !! field = Some v ∧ truthy v = true).
Proof.
  intros Hfind. split; [|split].
  - intros l Hl. unfold create_loan_details. by rewrite Hfind, Hl.
  - intros Hl field Hin Hmiss. unfold create_loan_details.
    rewrite Hfind, Hl.
    assert (field ∈ missing (req_fields data)) as Hf
      by (by apply list_elem_of_filter).
    destruct (missing (req_fields data)); [|done].
    by apply elem_of_nil in Hf.
  - intros s' bd H.
    apply create_loan_details_201 in H
      as (bill' & l & _ & Hl & Hmiss & _).
    split; [exact Hl|].
    apply missing_nil in Hmiss as (Ha & Hm & Hn).
    intros field Hin. apply not_missing_item.
    unfold required in Hin.
    repeat (apply elem_of_cons in Hin as [->|Hin]; [done|]).
    by apply elem_of_nil in Hin.
Qed.

(** C3 at work: a request with [total_installments = 0] on the car bill. *)
Lemma C3_initialize_rejections_witness :
  create_loan_details store0 "u1" "b1" (emi_request 1200 100 0 0 0)
    jan_2025 "L1"
  = (store0, (400, Message "Missing required fields: total_installments")).
Proof.
  refine (proj1 (proj2 (C3_initialize_rejections store0 "u1" "b1"
                          (emi_request 1200 100 0 0 0) jan_2025 "L1"
                          car_bill _)) _ "total_installments" _ _);
    try (vm_compute; reflexivity).
  unfold required. rewrite !elem_of_cons. auto.
Defined.

(** ** C5: the remaining amount *)

(** C5, as stated, fails: initialize detects no completion. A request that
    reports 1500 already paid on a loan of 1200 is stored with
    [amount_remaining = -300] and [is_active = true]. *)
Lemma C5_negative_remaining_while_active :
  match create_loan_details store0 "u1" "b1"
          (emi_request 1200 100 12 0 1500) jan_2025 "L1" with
  | (s', (201, LoanCreated l)) =>
      loans s' !! "b1" = Some l
      ∧ LoanDetails.amount_remaining l = Some (-300)%float
      ∧ PrimFloat.ltb (-300)%float 0%float = true
      ∧ LoanDetails.is_active l = true
  | _ => False
  end.
Proof. vm_compute. repeat split. Qed.

(** The derived fields are computed only when the stored [total_amount]
    and [monthly_payment] are non-zero: a request whose [total_amount] is
    the text "0" passes the presence check, is answered 201, and is stored
    with [total_amount = 0.0] and no [amount_remaining]. *)
Example create_loan_details_text_zero :
  match create_loan_details store0 "u1" "b1"
          {| req_fields :=
               <["total_amount" := JStr "0" (Ok 0%float) (Ok 0)]>
                 (req_fields (emi_request 1200 100 12 0 0));
             req_loan_start_date := None;
             req_notes := None |} jan_2025 "L1" with
  | (s', (201, LoanCreated l)) =>
      loans s' !! "b1" = Some l
      ∧ LoanDetails.total_amount l = 0%float
      ∧ has_amounts l = false
      ∧ LoanDetails.amount_remaining l = None
  | _ => False
  end.
Proof. vm_compute. repeat split. Qed.

(** C5 (amended): the loan stored by a successful [create_loan_details]
    has [amount_remaining = total_amount - total_paid] when its stored
    [total_amount] and [monthly_payment] are both non-zero, which is the
    case whenever the request sends the two as numbers, and has no
    [amount_remaining] otherwise; the loan stored by a successful
    [record_loan_payment] has [amount_remaining = total_amount -
    total_paid], and after a payment a negative [amount_remaining] comes
    with [is_active = false]. (Neither initialize nor recompute looks for
    completion.) *)
Theorem C5_remaining_after_operations :
  (∀ (s s' : db) (u b : string) (data : loan_request) (now : datetime)
     (new_id : string) (l : LoanDetails.t),
      create_loan_details s u b data now new_id
      = (s', (201, LoanCreated l)) →
      loans s' !! b = Some l
      ∧ (has_amounts l = true →
         LoanDetails.amount_remaining l
         = Some (PrimFloat.sub (LoanDetails.total_amount l)
                               (LoanDetails.total_paid l)))
      ∧ (has_amounts l = false → LoanDetails.amount_remaining l = None)
      ∧ (is_number (item (req_fields data) "total_amount") = true →
         is_number (item (req_fields data) "monthly_payment") = true →
         has_amounts l = true))
  ∧ (∀ (s s' : db) (u b : string) (data : gmap string json)
       (now : datetime) (new_id : string) (r : payment_result)
       (l' : LoanDetails.t),
      record_loan_payment s u b data now new_id
      = (s', (200, PaymentRecorded r l')) →
      loans s' !! b = Some l'
      ∧ LoanDetails.amount_remaining l'
        = Some (PrimFloat.sub (LoanDetails.total_amount l')
                              (LoanDetails.total_paid l'))
      ∧ res_amount_remaining r
        = PrimFloat.sub (LoanDetails.total_amount l')
                        (LoanDetails.total_paid l')
      ∧ (PrimFloat.ltb (PrimFloat.sub (LoanDetails.total_amount l')
                                      (LoanDetails.total_paid l'))
                       0%float = true →
         LoanDetails.is_active l' = false)).
Proof.
  split.
  - intros s s' u b data now new_id l H.
    apply create_loan_details_201 in H
      as (bill & l0 & _ & _ & Hmiss & Hb & Hg & Hbd & Hs).
    injection Hbd as <-.
    split; [rewrite Hs; apply lookup_insert_eq|].
    destruct (build_loan_inv _ _ _ _ _ Hb)
      as (_ & _ & _ & _ & _ & _ & _ & _ & _ & Hrem).
    split; [by intros E; rewrite E in Hrem|].
    split; [by intros E; rewrite E in Hrem; destruct Hrem|].
    exact (build_loan_numbers _ _ _ _ _ Hmiss Hb).
  - intros s s' u b data now new_id r l' H.
    apply record_loan_payment_200 in H
      as (bill & l & l1 & r1 & created & _ & _ & Ha & Hm & _ & Hs & Hbd).
    injection Hbd as <- <-.
    destruct (make_payment_inv _ _ _ _ _ Hm)
      as (x & next & _ & _ & _ & _ & Hrem & _ & _ & _ & Hact & Hr).
    destruct (make_payment_frame _ _ _ _ _ Hm) as (_ & _ & Hta & _).
    rewrite Hta.
    split; [rewrite Hs; apply lookup_insert_eq|].
    split; [exact Hrem|]. split; [by rewrite Hr|].
    intros Hneg. rewrite Hact, (float_ltb_leb _ _ Hneg).
    by rewrite orb_true_r.
Qed.

(** C5 at work: the payment that completes the car loan leaves
    [amount_remaining = 1200 - 1200]. *)
Lemma C5_remaining_after_operations_witness :
  loans store2 !! "b1" = Some loan2
  ∧ LoanDetails.amount_remaining loan2
    = Some (PrimFloat.sub (LoanDetails.total_amount loan2)
                          (LoanDetails.total_paid loan2)).
Proof.
  destruct (proj2 C5_remaining_after_operations store1 store2 "u1" "b1"
              (pay 1200) jan_2025 "b2" receipt2 loan2)
    as (H1 & H2 & _); [vm_compute; reflexivity|].
  split; [exact H1 | exact H2].
Defined.

(** ** C9: next month's bill is generated once *)

(** C9: when [advance_recurring_bill] has run, running it again for the
    same user, bill and loan (under any new id) creates nothing and leaves
    the bills as they are. A successor is created only when the loan is
    active, the frequency is "monthly" and no bill of that user, name and
    due date exists; it is due one month later and carries
    [loan.monthly_payment] and the bill's category, frequency and
    notification preferences. Nothing is created when the loan is no longer
    active or the successor exists. *)
Theorem C9_advance_idempotent (bs bs1 : gmap string Bill.t) (u : string)
    (bill : Bill.t) (loan : LoanDetails.t) (id1 : string)
    (created : option Bill.t) :
  advance_recurring_bill bs u bill loan id1 = Ok (bs1, created) →
  (∀ id2, advance_recurring_bill bs1 u bill loan id2 = Ok (bs1, None))
  ∧ match created with
    | None => bs1 = bs
    | Some nb =>
        LoanDetails.is_active loan = true
        ∧ Bill.frequency bill = "monthly"
        ∧ add_months (Bill.due_date bill) 1 = Ok (Bill.due_date nb)
        ∧ bill_exists bs u (Bill.name bill) (Bill.due_date nb) = false
        ∧ bs !! id1 = None
        ∧ bs1 = <[id1 := nb]> bs
        ∧ Bill.id nb = id1
        ∧ Bill.user_id nb = u
        ∧ Bill.name nb = Bill.name bill
        ∧ Bill.amount nb = LoanDetails.monthly_payment loan
        ∧ Bill.category nb = Bill.category bill
        ∧ Bill.frequency nb = Bill.frequency bill
        ∧ Bill.enable_whatsapp nb = Bill.enable_whatsapp bill
        ∧ Bill.enable_call nb = Bill.enable_call bill
        ∧ Bill.enable_sms nb = Bill.enable_sms bill
        ∧ Bill.enable_local_notification nb
          = Bill.enable_local_notification bill
        ∧ Bill.is_paid nb = false
        ∧ Bill.notes nb = Some (emi_note loan)
    end
  ∧ (LoanDetails.is_active loan = false → created = None)
  ∧ (∀ due, add_months (Bill.due_date bill) 1 = Ok due →
            bill_exists bs u (Bill.name bill) due = true →
            created = None).
Proof.
  intros H. split; [|split; [|split]].
  - intros id2.
    destruct (advance_inv _ _ _ _ _ _ _ H)
      as [[-> ->]|(due & -> & Ha & Hf & Hd & He & Hk & ->)].
    + revert H. unfold advance_recurring_bill.
      destruct (_ && _); [|done].
      destruct (add_months _ _) as [due|]; [|done]. simpl.
      destruct (bill_exists _ _ _ _); [done|].
      destruct (bs !! id1); discriminate.
    + unfold advance_recurring_bill. rewrite Ha, Hd.
      rewrite bool_decide_eq_true_2 by done. simpl.
      assert (bill_exists (<[id1 := successor u bill loan due id1]> bs) u
                (Bill.name bill) due = true) as ->; [|done].
      apply bill_exists_true.
      exists id1, (successor u bill loan due id1).
      split; [apply lookup_insert_eq | done].
  - destruct (advance_inv _ _ _ _ _ _ _ H)
      as [[-> ->]|(due & -> & Ha & Hf & Hd & He & Hk & ->)]; [done|].
    simpl. by repeat split.
  - intros Ha. revert H. unfold advance_recurring_bill. rewrite Ha. simpl.
    by intros [= _ <-].
  - intros due Hd He. revert H. unfold advance_recurring_bill.
    destruct (_ && _); [|by intros [= _ <-]].
    rewrite Hd. simpl. rewrite He. by intros [= _ <-].
Qed.

(** C9 at work: February's bill for the car loan is generated once. *)
Lemma C9_advance_idempotent_witness :
  advance_recurring_bill (<["b2" := next_car_bill]> (bills store1)) "u1"
    (attach_loan car_bill 100%float) loan1 "b3"
  = Ok (<["b2" := next_car_bill]> (bills store1), None).
Proof.
  refine (proj1 (C9_advance_idempotent (bills store1) _ "u1"
                   (attach_loan car_bill 100%float) loan1 "b2"
                   (Some next_car_bill) _) "b3").
  vm_compute. reflexivity.
Defined.

(** ** One operation, seen from one loan *)

Lemma apply_update_frame (bill bill' : Bill.t) (l l' : LoanDetails.t)
    (data : loan_update) :
  apply_update bill l data = Ok (bill', l') →
  LoanDetails.installments_paid l' = LoanDetails.installments_paid l
  ∧ LoanDetails.total_installments l' = LoanDetails.total_installments l
  ∧ LoanDetails.is_active l' = LoanDetails.is_active l.
Proof.
  unfold apply_update. intros H.
  apply bind_ok in H as ([b1 l1] & H1 & H).
  apply bind_ok in H as (l2 & H2 & H).
  apply bind_ok in H as (l3 & H3 & H). injection H as <- <-.
  destruct (calculate_frame _ _ H3)
    as (_ & _ & _ & _ & _ & -> & -> & _ & _ & _ & _ & -> & _).
  assert (LoanDetails.installments_paid l1 = LoanDetails.installments_paid l
          ∧ LoanDetails.total_installments l1
            = LoanDetails.total_installments l
          ∧ LoanDetails.is_active l1 = LoanDetails.is_active l)
    as (E1 & E2 & E3).
  { destruct (upd_fields data !! "monthly_payment") as [v|].
    - apply bind_ok in H1 as (x & _ & H1). by injection H1 as <- <-.
    - by injection H1 as <- <-. }
  assert (LoanDetails.installments_paid l2 = LoanDetails.installments_paid l1
          ∧ LoanDetails.total_installments l2
            = LoanDetails.total_installments l1
          ∧ LoanDetails.is_active l2 = LoanDetails.is_active l1)
    as (F1 & F2 & F3).
  { destruct (upd_fields data !! "interest_rate") as [v|].
    - apply bind_ok in H2 as (x & _ & H2). by injection H2 as <-.
    - by injection H2 as <-. }
  rewrite <- E1, <- E2, <- E3, <- F1, <- F2, <- F3.
  by destruct (upd_notes data).
Qed.

(** An operation leaves a stored loan in place; it either keeps its
    counters and its state, or is a payment on the loan while active. *)
Lemma step_loan (s : db) (o : op) (k : string) (l : LoanDetails.t) :
  loans s !! k = Some l →
  ∃ l', loans (step s o) !! k = Some l'
        ∧ ((LoanDetails.installments_paid l' = LoanDetails.installments_paid l
            ∧ LoanDetails.total_installments l'
              = LoanDetails.total_installments l
            ∧ LoanDetails.is_active l' = LoanDetails.is_active l)
           ∨ (LoanDetails.is_active l = true
              ∧ ∃ amount now r,
                  LoanDetails.make_payment l amount now = Ok (l', r))).
Proof.
  intros Hl. destruct o as [u b data now nid|u b data|u b data now nid|u b nid];
    simpl.
  - destruct (create_loan_details_loans s u b data now nid)
      as [->|(l0 & Hnone & ->)].
    + exists l. split; [done|]. by left.
    + exists l. split; [|by left].
      rewrite lookup_insert_ne; [done|]. congruence.
  - unfold update_loan_details.
    destruct (find_bill s b u) as [bill|]; [|exists l; split; [done|by left]].
    destruct (loans s !! b) as [l0|] eqn:Hb;
      [|exists l; split; [done|by left]].
    destruct (apply_update bill l0 data) as [[bill' l']|e] eqn:Hu;
      [|exists l; split; [done|by left]].
    simpl. destruct (decide (b = k)) as [->|Hne].
    + exists l'. split; [apply lookup_insert_eq|]. left.
      assert (l0 = l) as -> by congruence.
      exact (apply_update_frame _ _ _ _ _ Hu).
    + exists l. split; [by rewrite lookup_insert_ne|by left].
  - destruct (record_loan_payment_loans s u b data now nid)
      as [->|(l0 & l' & r & Hb & Ha & Hm & ->)].
    + exists l. split; [done|]. by left.
    + destruct (decide (b = k)) as [->|Hne].
      * exists l'. split; [apply lookup_insert_eq|]. right.
        assert (l0 = l) as -> by congruence. eauto.
      * exists l. split; [by rewrite lookup_insert_ne|by left].
  - exists l. split; [|by left].
    destruct (find_bill s b u); [|done].
    destruct (loans s !! b); [|done].
    by destruct (advance_recurring_bill _ _ _ _ _) as [[bs ?]|].
Qed.

Lemma run_app (s : db) (ops1 ops2 : list op) :
  run s (ops1 ++ ops2) = run (run s ops1) ops2.
Proof. apply foldl_app. Qed.

(** ** C7: one-way lifecycle *)

(** C7: across every sequence of operations (initialize, recompute,
    record_payment, advance_recurring_bill), a stored loan stays stored,
    its [installments_paid] never decreases, and once [is_active] is false
    it stays false. *)
Theorem C7_monotone_lifecycle (s : db) (ops1 ops2 : list op) (b : string)
    (l1 : LoanDetails.t) :
  loans (run s ops1) !! b = Some l1 →
  ∃ l2, loans (run s (ops1 ++ ops2)) !! b = Some l2
        ∧ LoanDetails.installments_paid l1 ≤ LoanDetails.installments_paid l2
        ∧ (LoanDetails.is_active l1 = false →
           LoanDetails.is_active l2 = false).
Proof.
  rewrite run_app. generalize (run s ops1) as s1. clear s ops1.
  intros s1. revert s1 l1.
  induction ops2 as [|o ops IH]; intros s1 l1 Hl; simpl.
  - exists l1. split; [done|]. split; [lia|done].
  - destruct (step_loan s1 o b l1 Hl) as (l' & Hl' & Hstep).
    destruct (IH _ _ Hl') as (l2 & Hl2 & Hip & Hact).
    exists l2. split; [exact Hl2|].
    destruct Hstep as [(E1 & _ & E3)|(Ha & amount & now & r & Hm)].
    + rewrite <- E1, <- E3. by split.
    + destruct (make_payment_inv _ _ _ _ _ Hm) as (_ & _ & _ & _ & E & _).
      split; [lia | congruence].
Qed.

(** C7 at work: the completed car loan after two more requests. *)
Lemma C7_monotone_lifecycle_witness :
  ∃ l2,
    loans (run store0
             ([Initialize "u1" "b1" (emi_request 1200 100 12 0 0) jan_2025
                 "L1";
               RecordPayment "u1" "b1" (pay 1200) jan_2025 "b2"]
              ++ [RecordPayment "u1" "b1" (pay 100) jan_2025 "b3";
                  Recompute "u1" "b1" (set_monthly 50)]))
      !! "b1" = Some l2
    ∧ LoanDetails.installments_paid loan2 ≤ LoanDetails.installments_paid l2
    ∧ (LoanDetails.is_active loan2 = false →
       LoanDetails.is_active l2 = false).
Proof.
  apply (C7_monotone_lifecycle store0). vm_compute. reflexivity.
Defined.

(** ** C4: the count of installments and the schedule *)

(** C4, as stated, fails: initialize accepts any count. With
    [installments_paid = 13] of 12 the request is answered 201 and stored;
    with [installments_paid = 12] of 12 it is stored active, and the next
    payment is accepted and makes it 13 of 12. *)
Lemma C4_count_beyond_schedule :
  match create_loan_details store0 "u1" "b1"
          (emi_request 1200 100 12 13 0) jan_2025 "L1" with
  | (_, (201, LoanCreated l)) =>
      LoanDetails.installments_paid l = 13
      ∧ LoanDetails.total_installments l = 12
  | _ => False
  end
  ∧ match create_loan_details store0 "u1" "b1"
            (emi_request 1200 100 12 12 0) jan_2025 "L1" with
    | (s', (201, LoanCreated l)) =>
        s' = store_paid 12
        ∧ LoanDetails.installments_paid l = 12
        ∧ LoanDetails.is_active l = true
    | _ => False
    end
  ∧ match record_loan_payment (store_paid 12) "u1" "b1" ∅ jan_2025 "b2" with
    | (_, (200, PaymentRecorded r l')) =>
        LoanDetails.installments_paid l' = 13
        ∧ LoanDetails.total_installments l' = 12
    | _ => False
    end.
Proof. vm_compute. repeat split. Qed.

Lemma make_payment_within_schedule (l l' : LoanDetails.t) (amount : json)
    (now : datetime) (r : payment_result) :
  LoanDetails.is_active l = true →
  LoanDetails.make_payment l amount now = Ok (l', r) →
  within_schedule l → within_schedule l'.
Proof.
  intros Ha Hm ((H0 & _) & Hlt). specialize (Hlt Ha).
  destruct (make_payment_inv _ _ _ _ _ Hm)
    as (_ & _ & _ & _ & Hip & _ & _ & _ & _ & _ & Hact & _).
  destruct (make_payment_frame _ _ _ _ _ Hm)
    as (_ & _ & _ & _ & _ & Hti & _).
  unfold within_schedule. rewrite Hti, Hact.
  split; [lia|].
  destruct (_ <=? _) eqn:Hle; simpl; [done|].
  apply Z.leb_gt in Hle. intros _. lia.
Qed.

(** C4 (amended): [create_loan_details] stores the [installments_paid] and
    the [total_installments] of the request as they are converted, with no
    range check, on a loan that starts active; so a loan created with
    [0 <= installments_paid < total_installments] is within its schedule.
    A stored loan that is within its schedule stays stored and within it
    across every sequence of operations, hence keeps
    [0 <= installments_paid <= total_installments]: the payment that
    reaches the bound deactivates the loan and later payments are
    rejected. *)
Theorem C4_installments_within_schedule :
  (∀ (s s' : db) (u b : string) (data : loan_request) (now : datetime)
     (new_id : string) (l : LoanDetails.t),
      create_loan_details s u b data now new_id
      = (s', (201, LoanCreated l)) →
      loans s' !! b = Some l
      ∧ py_int (get_or_zero (req_fields data) "installments_paid")
        = Ok (LoanDetails.installments_paid l)
      ∧ py_int (item (req_fields data) "total_installments")
        = Ok (LoanDetails.total_installments l)
      ∧ LoanDetails.is_active l = true
      ∧ (0 ≤ LoanDetails.installments_paid l
           < LoanDetails.total_installments l →
         within_schedule l))
  ∧ (∀ (s : db) (ops : list op) (b : string) (l : LoanDetails.t),
      loans s !! b = Some l →
      within_schedule l →
      ∃ l', loans (run s ops) !! b = Some l'
            ∧ within_schedule l'
            ∧ 0 ≤ LoanDetails.installments_paid l'
                ≤ LoanDetails.total_installments l').
Proof.
  split.
  - intros s s' u b data now new_id l H.
    apply create_loan_details_201 in H
      as (bill & l0 & _ & _ & _ & Hb & Hg & Hbd & Hs).
    injection Hbd as <-.
    destruct (build_loan_inv _ _ _ _ _ Hb)
      as (_ & _ & Hti & Hip & _ & _ & Ha & _).
    split; [rewrite Hs; apply lookup_insert_eq|].
    repeat split; try done; lia.
  - intros s ops. revert s.
    induction ops as [|o ops IH]; intros s b l Hl Hw; simpl.
    + exists l. split; [done|]. split; [done|]. apply Hw.
    + destruct (step_loan s o b l Hl) as (l' & Hl' & Hstep).
      apply (IH _ _ l' Hl').
      destruct Hstep as [(E1 & E2 & E3)|(Ha & amount & now & r & Hm)].
      * unfold within_schedule. by rewrite E1, E2, E3.
      * by apply (make_payment_within_schedule l l' amount now r).
Qed.

(** C4 at work: twelve default payments and one more on the car loan. *)
Lemma C4_installments_within_schedule_witness :
  ∃ l', loans (run store1
                 (replicate 13 (RecordPayment "u1" "b1" ∅ jan_2025 "b2")))
          !! "b1" = Some l'
        ∧ within_schedule l'
        ∧ 0 ≤ LoanDetails.installments_paid l'
            ≤ LoanDetails.total_installments l'.
Proof.
  apply (proj2 C4_installments_within_schedule store1 _ "b1" loan1).
  - vm_compute. reflexivity.
  - vm_compute. split; [split; discriminate | reflexivity].
Defined.

(** * Further properties of the routes *)

(** ** What a created loan looks like *)

Lemma create_loan_details_201_store (s s' : db) (u b : string)
    (data : loan_request) (now : datetime) (new_id : string)
    (l : LoanDetails.t) :
  create_loan_details s u b data now new_id = (s', (201, LoanCreated l)) →
  ∃ bill,
    find_bill s b u = Some bill
    ∧ missing (req_fields data) = []
    ∧ build_loan b data now new_id = Ok l
    ∧ s' = mk_db (<[b := attach_loan bill (LoanDetails.monthly_payment l)]>
                    (bills s))
                 (<[b := l]> (loans s)).
Proof.
  intros H. pose proof H as H'.
  apply create_loan_details_201 in H'
    as (bill & l0 & Hfind & Hnone & Hmiss & Hb & Hg & [= <-] & _).
  exists bill. repeat split; try done.
  revert H. unfold create_loan_details. rewrite Hfind, Hnone, Hmiss, Hb.
  by intros [= <-].
Qed.

(** The rows written by a successful [create_loan_details]: the bill gets
    the loan's monthly payment as its amount and "monthly" as its
    frequency and keeps every other column, the four notification
    preferences included; the loan is stored under the bill with the new
    id; every other bill and loan is left as it was. *)
Theorem create_loan_details_attaches (s s' : db) (u b : string)
    (data : loan_request) (now : datetime) (new_id : string)
    (l : LoanDetails.t) :
  create_loan_details s u b data now new_id = (s', (201, LoanCreated l)) →
  ∃ bill bill',
    bills s !! b = Some bill
    ∧ bills s' !! b = Some bill'
    ∧ loans s' !! b = Some l
    ∧ Bill.amount bill' = LoanDetails.monthly_payment l
    ∧ Bill.frequency bill' = "monthly"
    ∧ Bill.id bill' = Bill.id bill
    ∧ Bill.user_id bill' = u
    ∧ Bill.name bill' = Bill.name bill
    ∧ Bill.due_date bill' = Bill.due_date bill
    ∧ Bill.category bill' = Bill.category bill
    ∧ Bill.is_paid bill' = Bill.is_paid bill
    ∧ Bill.notes bill' = Bill.notes bill
    ∧ Bill.enable_whatsapp bill' = Bill.enable_whatsapp bill
    ∧ Bill.enable_call bill' = Bill.enable_call bill
    ∧ Bill.enable_sms bill' = Bill.enable_sms bill
    ∧ Bill.enable_local_notification bill'
      = Bill.enable_local_notification bill
    ∧ LoanDetails.id l = new_id
    ∧ LoanDetails.bill_id l = b
    ∧ LoanDetails.notes l = req_notes data
    ∧ (∀ k, k ≠ b → bills s' !! k = bills s !! k
                    ∧ loans s' !! k = loans s !! k).
Proof.
  intros H.
  apply create_loan_details_201_store in H as (bill & Hfind & _ & Hb & ->).
  pose proof (find_bill_lookup _ _ _ _ Hfind) as Hbill.
  assert (Bill.user_id bill = u) as Hu.
  { revert Hfind. unfold find_bill. rewrite Hbill.
    by case_bool_decide. }
  exists bill, (attach_loan bill (LoanDetails.monthly_payment l)).
  simpl. rewrite !lookup_insert_eq.
  assert (LoanDetails.id l = new_id ∧ LoanDetails.bill_id l = b
          ∧ LoanDetails.notes l = req_notes data) as (? & ? & ?).
  { unfold build_loan in Hb.
    apply bind_ok in Hb as (ta & _ & Hb).
    apply bind_ok in Hb as (mp & _ & Hb).
    apply bind_ok in Hb as (ir & _ & Hb).
    apply bind_ok in Hb as (ti & _ & Hb).
    apply bind_ok in Hb as (ip & _ & Hb).
    apply bind_ok in Hb as (tp & _ & Hb).
    apply bind_ok in Hb as (l0 & Hl0 & Hb).
    destruct (calculate_frame _ _ Hl0)
      as (E1 & E2 & _ & _ & _ & _ & _ & _ & _ & _ & _ & _ & E3).
    destruct (calculate_frame _ _ Hb)
      as (F1 & F2 & _ & _ & _ & _ & _ & _ & _ & _ & _ & _ & F3).
    simpl in *. by rewrite F1, F2, F3. }
  repeat split; try done.
  all: by rewrite lookup_insert_ne.
Qed.

Lemma create_loan_details_attaches_witness :
  ∃ bill', bills store1 !! "b1" = Some bill'
           ∧ Bill.amount bill' = 100%float
           ∧ Bill.frequency bill' = "monthly".
Proof.
  destruct (create_loan_details_attaches store0 store1 "u1" "b1"
              (emi_request 1200 100 12 0 0) jan_2025 "L1" loan1)
    as (bill & bill' & _ & H1 & _ & H2 & H3 & _);
    [vm_compute; reflexivity|].
  exists bill'. split; [exact H1|]. split; [exact H2 | exact H3].
Defined.

(** The dates of a created loan: it starts on the requested date, or now,
    with no payment on record. When the stored [total_amount] and
    [monthly_payment] are both non-zero, as they are whenever the request
    sends the two as numbers, the next payment is due
    [installments_paid + 1] months after the start and the expected
    completion is [total_installments] months after the start, left unset
    when [total_installments] converts to 0 (a fraction below 1 passes the
    validation). When one of the two is stored as zero (the text "0"
    passes the validation), neither date is set. *)
Theorem create_loan_details_dates (s s' : db) (u b : string)
    (data : loan_request) (now : datetime) (new_id : string)
    (l : LoanDetails.t) :
  create_loan_details s u b data now new_id = (s', (201, LoanCreated l)) →
  LoanDetails.loan_start_date l = default now (req_loan_start_date data)
  ∧ LoanDetails.last_payment_date l = None
  ∧ LoanDetails.payment_history l = []
  ∧ (is_number (item (req_fields data) "total_amount") = true →
     is_number (item (req_fields data) "monthly_payment") = true →
     has_amounts l = true)
  ∧ (has_amounts l = true →
     (∃ next,
         add_months (LoanDetails.loan_start_date l)
                    (LoanDetails.installments_paid l + 1) = Ok next
         ∧ LoanDetails.next_payment_date l = Some next)
     ∧ (LoanDetails.total_installments l ≠ 0 →
        ∃ d, add_months (LoanDetails.loan_start_date l)
                        (LoanDetails.total_installments l) = Ok d
             ∧ LoanDetails.expected_completion_date l = Some d)
     ∧ (LoanDetails.total_installments l = 0 →
        LoanDetails.expected_completion_date l = None))
  ∧ (has_amounts l = false →
     LoanDetails.next_payment_date l = None
     ∧ LoanDetails.expected_completion_date l = None).
Proof.
  intros H.
  apply create_loan_details_201_store in H as (bill & _ & Hmiss & Hb & _).
  destruct (build_loan_inv _ _ _ _ _ Hb)
    as (_ & _ & _ & _ & _ & Hstart & _ & Hhist & Hlast & Hder).
  split; [exact Hstart|]. split; [exact Hlast|]. split; [exact Hhist|].
  split; [exact (build_loan_numbers _ _ _ _ _ Hmiss Hb)|].
  split; [|by intros E; rewrite E in Hder; destruct Hder].
  intros Hg. clear Hder Hmiss.
  unfold build_loan in Hb.
  apply bind_ok in Hb as (ta & _ & Hb).
  apply bind_ok in Hb as (mp & _ & Hb).
  apply bind_ok in Hb as (ir & _ & Hb).
  apply bind_ok in Hb as (ti & _ & Hb).
  apply bind_ok in Hb as (ip & _ & Hb).
  apply bind_ok in Hb as (tp & _ & Hb).
  apply bind_ok in Hb as (l0 & Hl0 & Hb).
  destruct (calculate_frame _ _ Hb)
    as (_ & _ & Fa & Fb & _ & Fti & Fip & _ & Fst & _).
  destruct (calculate_frame _ _ Hl0)
    as (_ & _ & Ea & Eb & _ & Eti & Eip & _ & Est & _).
  assert (has_amounts l0 = true) as Hg0.
  { revert Hg. unfold has_amounts. by rewrite Fa, Fb. }
  destruct (calculate_derived _ _ Hb Hg0) as (_ & Hnext & Hexp).
  unfold new_loan in Hl0.
  assert (has_amounts
            {| LoanDetails.id := new_id; LoanDetails.bill_id := b;
               LoanDetails.total_amount := ta;
               LoanDetails.monthly_payment := mp;
               LoanDetails.interest_rate := ir;
               LoanDetails.total_installments := ti;
               LoanDetails.installments_paid := ip;
               LoanDetails.total_paid := tp;
               LoanDetails.amount_remaining := None;
               LoanDetails.loan_start_date :=
                 default now (req_loan_start_date data);
               LoanDetails.expected_completion_date := None;
               LoanDetails.last_payment_date := None;
               LoanDetails.next_payment_date := None;
               LoanDetails.payment_history := [];
               LoanDetails.is_active := true;
               LoanDetails.notes := req_notes data |} = true) as Hgd.
  { revert Hg0. unfold has_amounts. by rewrite Ea, Eb. }
  destruct (calculate_derived _ _ Hl0 Hgd) as (_ & _ & Hexp0).
  simpl in Hexp0, Eti, Est.
  rewrite Fst, Fip, Fti. split; [exact Hnext|].
  split.
  - intros Hne. rewrite Eti in Hne. rewrite bool_decide_eq_true_2 in Hexp0
      by done.
    destruct Hexp0 as (d & Hd & Hset). rewrite Hset in Hexp.
    exists d. split; [|done]. by rewrite Est, Eti.
  - intros Hz. rewrite Eti in Hz. rewrite bool_decide_eq_false_2 in Hexp0
      by (intros ?; done).
    rewrite Hexp0 in Hexp.
    assert (LoanDetails.total_installments l0 = 0) as Hz0
      by (by rewrite Eti).
    rewrite bool_decide_eq_false_2 in Hexp by (intros ?; done).
    done.
Qed.

Lemma create_loan_details_dates_witness :
  LoanDetails.loan_start_date loan1 = jan_2025
  ∧ ∃ d, add_months jan_2025 12 = Ok d
         ∧ LoanDetails.expected_completion_date loan1 = Some d.
Proof.
  destruct (create_loan_details_dates store0 store1 "u1" "b1"
              (emi_request 1200 100 12 0 0) jan_2025 "L1" loan1)
    as (H1 & _ & _ & _ & H2 & _); [vm_compute; reflexivity|].
  split; [exact H1|].
  destruct H2 as (_ & H2 & _); [vm_compute; reflexivity|].
  apply H2. discriminate.
Defined.

(** ** The bills around a recorded payment *)

(** A recorded payment marks the bill paid and changes no other column
    of it, the four notification preferences included; no other loan is
    touched, and no other bill except, possibly, one new bill under the
    new id. *)
Theorem record_loan_payment_marks_paid (s s' : db) (u b : string)
    (data : gmap string json) (now : datetime) (new_id : string)
    (r : payment_result) (l' : LoanDetails.t) :
  record_loan_payment s u b data now new_id
  = (s', (200, PaymentRecorded r l')) →
  ∃ bill bill',
    bills s !! b = Some bill
    ∧ bills s' !! b = Some bill'
    ∧ Bill.is_paid bill' = true
    ∧ Bill.id bill' = Bill.id bill
    ∧ Bill.user_id bill' = Bill.user_id bill
    ∧ Bill.name bill' = Bill.name bill
    ∧ Bill.amount bill' = Bill.amount bill
    ∧ Bill.due_date bill' = Bill.due_date bill
    ∧ Bill.category bill' = Bill.category bill
    ∧ Bill.frequency bill' = Bill.frequency bill
    ∧ Bill.notes bill' = Bill.notes bill
    ∧ Bill.enable_whatsapp bill' = Bill.enable_whatsapp bill
    ∧ Bill.enable_call bill' = Bill.enable_call bill
    ∧ Bill.enable_sms bill' = Bill.enable_sms bill
    ∧ Bill.enable_local_notification bill'
      = Bill.enable_local_notification bill
    ∧ (∀ k, k ≠ b → loans s' !! k = loans s !! k)
    ∧ (∀ k, k ≠ b → k ≠ new_id → bills s' !! k = bills s !! k).
Proof.
  intros H.
  apply record_loan_payment_200 in H
    as (bill & l & l1 & r1 & created & Hfind & _ & _ & _ & Hadv & Hs & _).
  pose proof (find_bill_lookup _ _ _ _ Hfind) as Hbill.
  exists bill, (mark_paid bill). split; [exact Hbill|].
  assert (bills s' !! b = Some (mark_paid bill)
          ∧ ∀ k, k ≠ new_id →
                 bills s' !! k = <[b := mark_paid bill]> (bills s) !! k)
    as (Hb & Hbills).
  { destruct (advance_inv _ _ _ _ _ _ _ Hadv)
      as [[_ ->]|(due & _ & _ & _ & _ & _ & Hk & ->)].
    - split; [apply lookup_insert_eq | done].
    - assert (b ≠ new_id) as Hne.
      { intros <-. by rewrite lookup_insert_eq in Hk. }
      split.
      + by rewrite lookup_insert_ne, lookup_insert_eq.
      + intros k Hk'. by rewrite lookup_insert_ne. }
  split; [exact Hb|].
  repeat split; try done.
  - intros k Hk. by rewrite Hs, lookup_insert_ne.
  - intros k Hk Hk'. by rewrite Hbills, lookup_insert_ne.
Qed.

Lemma record_loan_payment_marks_paid_witness :
  ∃ bill', bills store2 !! "b1" = Some bill' ∧ Bill.is_paid bill' = true.
Proof.
  destruct (record_loan_payment_marks_paid store1 store2 "u1" "b1"
              (pay 1200) jan_2025 "b2" receipt2 loan2)
    as (bill & bill' & _ & H1 & H2 & _); [vm_compute; reflexivity|].
  exists bill'. split; [exact H1 | exact H2].
Defined.

(** After a recorded payment that leaves the loan active on a monthly
    bill, a bill of the same user and name due one month later exists;
    after one that completes the loan, or on a bill that is not monthly,
    the only change to the bills is the paid mark. *)
Theorem record_loan_payment_next_bill (s s' : db) (u b : string)
    (data : gmap string json) (now : datetime) (new_id : string)
    (r : payment_result) (l' : LoanDetails.t) (bill : Bill.t) :
  record_loan_payment s u b data now new_id
  = (s', (200, PaymentRecorded r l')) →
  bills s !! b = Some bill →
  (LoanDetails.is_active l' = true → Bill.frequency bill = "monthly" →
   ∃ due, add_months (Bill.due_date bill) 1 = Ok due
          ∧ bill_exists (bills s') u (Bill.name bill) due = true)
  ∧ (LoanDetails.is_active l' = false ∨ Bill.frequency bill ≠ "monthly" →
     bills s' = <[b := mark_paid bill]> (bills s)).
Proof.
  intros H Hbill.
  apply record_loan_payment_200 in H
    as (bill0 & l & l1 & r1 & created & Hfind & _ & _ & _ & Hadv & _ & Hbd).
  injection Hbd as <- <-.
  pose proof (find_bill_lookup _ _ _ _ Hfind) as Hbill0.
  assert (bill0 = bill) as -> by congruence.
  split.
  - intros Ha Hf. revert Hadv. unfold advance_recurring_bill.
    rewrite Ha. simpl. rewrite bool_decide_eq_true_2 by done. simpl.
    destruct (add_months (Bill.due_date bill) 1) as [due|]; [|done]. simpl.
    destruct (bill_exists _ _ _ _) eqn:He.
    + intros [= <-]. eauto.
    + destruct (_ !! new_id) eqn:Hk; [done|]. intros [= <-].
      exists due. split; [done|]. apply bill_exists_true.
      eexists new_id, _. split; [apply lookup_insert_eq|done].
  - intros Hcase. revert Hadv. unfold advance_recurring_bill.
    destruct Hcase as [Ha|Hf].
    + rewrite Ha. simpl. by intros [= <-].
    + rewrite (bool_decide_eq_false_2 _ Hf), andb_false_r.
      by intros [= <-].
Qed.

Lemma record_loan_payment_next_bill_witness :
  bills store2 = <["b1" := mark_paid (attach_loan car_bill 100%float)]>
                   (bills store1).
Proof.
  refine (proj2 (record_loan_payment_next_bill store1 store2 "u1" "b1"
                   (pay 1200) jan_2025 "b2" receipt2 loan2
                   (attach_loan car_bill 100%float) _ _) _).
  - vm_compute. reflexivity.
  - vm_compute. reflexivity.
  - left. reflexivity.
Defined.

Lemma paid_bill_and_successor (s s' : db) (u b : string)
    (data : gmap string json) (now : datetime) (new_id : string)
    (bd : body) :
  record_loan_payment s u b data now new_id = (s', (200, bd)) →
  ∃ bill l',
    bills s !! b = Some bill
    ∧ loans s' !! b = Some l'
    ∧ bills s' !! b = Some (mark_paid bill)
    ∧ (LoanDetails.is_active l' = true → Bill.frequency bill = "monthly" →
       ∃ due, add_months (Bill.due_date bill) 1 = Ok due
              ∧ bill_exists (bills s') u (Bill.name bill) due = true).
Proof.
  intros H.
  apply record_loan_payment_200 in H
    as (bill & l & l' & r & created & Hfind & _ & _ & _ & Hadv & Hs & _).
  exists bill, l'.
  split; [exact (find_bill_lookup _ _ _ _ Hfind)|].
  split; [rewrite Hs; apply lookup_insert_eq|].
  split.
  - destruct (advance_inv _ _ _ _ _ _ _ Hadv)
      as [[_ ->]|(due & _ & _ & _ & _ & _ & Hk & ->)];
      [apply lookup_insert_eq|].
    rewrite lookup_insert_ne; [apply lookup_insert_eq|].
    intros <-. by rewrite lookup_insert_eq in Hk.
  - intros Ha Hf. revert Hadv. unfold advance_recurring_bill.
    rewrite Ha. simpl. rewrite bool_decide_eq_true_2 by done. simpl.
    destruct (add_months (Bill.due_date bill) 1) as [due|]; [|done]. simpl.
    destruct (bill_exists _ _ _ _) eqn:He.
    + intros [= <-]. eauto.
    + destruct (_ !! new_id) eqn:Hk; [done|]. intros [= <-].
      exists due. split; [done|]. apply bill_exists_true.
      eexists new_id, _. split; [apply lookup_insert_eq|done].
Qed.

(** Two payments recorded one after the other on a bill generate at most
    one bill: the second one leaves the bills exactly as the first left
    them. *)
Theorem second_payment_adds_no_bill (s s1 s2 : db) (u b : string)
    (data1 data2 : gmap string json) (now1 now2 : datetime)
    (id1 id2 : string) (bd1 bd2 : body) :
  record_loan_payment s u b data1 now1 id1 = (s1, (200, bd1)) →
  record_loan_payment s1 u b data2 now2 id2 = (s2, (200, bd2)) →
  bills s2 = bills s1.
Proof.
  intros H1 H2.
  apply paid_bill_and_successor in H1
    as (bill & l1 & Hbill & Hl1 & Hb1 & Hsucc).
  apply record_loan_payment_200 in H2
    as (bill1 & l1' & l2 & r2 & c2 & Hfind2 & Hl1' & Ha1 & _ & Hadv2 & _).
  pose proof (find_bill_lookup _ _ _ _ Hfind2) as Hbill1.
  assert (bill1 = mark_paid bill) as -> by congruence.
  assert (l1' = l1) as -> by congruence.
  change (mark_paid (mark_paid bill)) with (mark_paid bill) in Hadv2.
  rewrite (insert_id _ _ _ Hb1) in Hadv2.
  destruct (advance_inv _ _ _ _ _ _ _ Hadv2)
    as [[_ ->]|(due & _ & _ & Hf2 & Hd2 & He2 & _ & _)]; [done|].
  destruct (Hsucc Ha1 Hf2) as (due' & Hd' & He').
  simpl in Hd2, He2. congruence.
Qed.

Lemma second_payment_adds_no_bill_witness :
  bills (run store1 [RecordPayment "u1" "b1" ∅ jan_2025 "b2";
                     RecordPayment "u1" "b1" ∅ jan_2025 "b3"])
  = bills (run store1 [RecordPayment "u1" "b1" ∅ jan_2025 "b2"]).
Proof.
  eapply (second_payment_adds_no_bill store1 _ _ "u1" "b1" ∅ ∅ jan_2025
            jan_2025 "b2" "b3").
  - vm_compute. reflexivity.
  - vm_compute. reflexivity.
Defined.

(** ** Sequences of operations, loan by loan *)

Lemma kept_refl (l : LoanDetails.t) : kept l l.
Proof. split; [by repeat split|]. by split. Qed.

Lemma calculate_kept (l l' : LoanDetails.t) :
  LoanDetails.calculate_loan_details l = Ok l' → kept l l'.
Proof.
  intros H.
  destruct (calculate_frame _ _ H)
    as (_ & _ & Ea & _ & _ & Eti & Eip & Etp & Est & Elast & Eh & Eact & _).
  split; [by repeat split|]. split.
  - intros d Hd. destruct (has_amounts l) eqn:Hg.
    + destruct (calculate_derived _ _ H Hg) as (_ & _ & He).
      by rewrite Hd in He.
    + rewrite (calculate_skipped l Hg) in H. by injection H as <-.
  - intros Hder. destruct (has_amounts l) eqn:Hg.
    + destruct (calculate_derived _ _ H Hg) as (Hrem & Hnext & _).
      unfold derived_in_step. by rewrite Ea, Etp, Est, Eip.
    + rewrite (calculate_skipped l Hg) in H. by injection H as <-.
Qed.

Lemma apply_update_kept (bill bill' : Bill.t) (l l' : LoanDetails.t)
    (data : loan_update) :
  apply_update bill l data = Ok (bill', l') → kept l l'.
Proof.
  unfold apply_update. intros H.
  apply bind_ok in H as ([b1 l1] & H1 & H).
  apply bind_ok in H as (l2 & H2 & H).
  apply bind_ok in H as (l3 & H3 & H). injection H as <- <-.
  assert (kept l l1) as K1.
  { destruct (upd_fields data !! "monthly_payment") as [v|].
    - apply bind_ok in H1 as (x & _ & H1). injection H1 as <- <-.
      split; [by repeat split|]. by split.
    - injection H1 as <- <-. apply kept_refl. }
  assert (kept l1 l2) as K2.
  { destruct (upd_fields data !! "interest_rate") as [v|].
    - apply bind_ok in H2 as (x & _ & H2). injection H2 as <-.
      split; [by repeat split|]. by split.
    - injection H2 as <-. apply kept_refl. }
  set (l2' := match upd_notes data with
              | Some n => with_notes n l2
              | None => l2
              end) in H3.
  assert (kept l2 l2') as K3.
  { subst l2'. destruct (upd_notes data); [|apply kept_refl].
    split; [by repeat split|]. by split. }
  pose proof (calculate_kept _ _ H3) as K4.
  clear -K1 K2 K3 K4.
  assert (∀ a b c, kept a b → kept b c → kept a c) as Htrans.
  { intros a b c ((A1&A2&A3&A4&A5&A6&A7&A8) & Ae & Ad)
                 ((B1&B2&B3&B4&B5&B6&B7&B8) & Be & Bd).
    split; [|split; [eauto | eauto]].
    unfold same_ledger. rewrite B1, B2, B3, B4, B5, B6, B7, B8.
    by repeat split. }
  eauto.
Qed.

(** An operation leaves a stored loan in place and either keeps its
    ledger, or is a payment on the loan while active. *)
Lemma step_loan_kept (s : db) (o : op) (k : string) (l : LoanDetails.t) :
  loans s !! k = Some l →
  ∃ l', loans (step s o) !! k = Some l'
        ∧ (kept l l'
           ∨ (LoanDetails.is_active l = true
              ∧ ∃ amount now r,
                  LoanDetails.make_payment l amount now = Ok (l', r))).
Proof.
  intros Hl.
  destruct o as [u b data now nid|u b data|u b data now nid|u b nid]; simpl.
  - destruct (create_loan_details_loans s u b data now nid)
      as [->|(l0 & Hnone & ->)].
    + exists l. split; [done|]. left. apply kept_refl.
    + exists l. split; [|left; apply kept_refl].
      rewrite lookup_insert_ne; [done|]. congruence.
  - unfold update_loan_details.
    destruct (find_bill s b u) as [bill|];
      [|exists l; split; [done|left; apply kept_refl]].
    destruct (loans s !! b) as [l0|] eqn:Hb;
      [|exists l; split; [done|left; apply kept_refl]].
    destruct (apply_update bill l0 data) as [[bill' l']|e] eqn:Hu;
      [|exists l; split; [done|left; apply kept_refl]].
    simpl. destruct (decide (b = k)) as [->|Hne].
    + exists l'. split; [apply lookup_insert_eq|]. left.
      assert (l0 = l) as -> by congruence.
      exact (apply_update_kept _ _ _ _ _ Hu).
    + exists l. split; [by rewrite lookup_insert_ne|left; apply kept_refl].
  - destruct (record_loan_payment_loans s u b data now nid)
      as [->|(l0 & l' & r & Hb & Ha & Hm & ->)].
    + exists l. split; [done|]. left. apply kept_refl.
    + destruct (decide (b = k)) as [->|Hne].
      * exists l'. split; [apply lookup_insert_eq|]. right.
        assert (l0 = l) as -> by congruence. eauto.
      * exists l. split; [by rewrite lookup_insert_ne|left; apply kept_refl].
  - exists l. split; [|left; apply kept_refl].
    destruct (find_bill s b u); [|done].
    destruct (loans s !! b); [|done].
    by destruct (advance_recurring_bill _ _ _ _ _) as [[bs ?]|].
Qed.

(** Induction over a sequence of operations, seen from one stored loan. *)
Lemma run_loan_ind (R : LoanDetails.t → LoanDetails.t → Prop) :
  (∀ l, R l l) →
  (∀ l1 l2 l3, R l1 l2 → R l2 l3 → R l1 l3) →
  (∀ l l', kept l l' → R l l') →
  (∀ l l' amount now r,
     LoanDetails.is_active l = true →
     LoanDetails.make_payment l amount now = Ok (l', r) → R l l') →
  ∀ (ops : list op) (s : db) (b : string) (l : LoanDetails.t),
    loans s !! b = Some l →
    ∃ l', loans (run s ops) !! b = Some l' ∧ R l l'.
Proof.
  intros Hrefl Htrans Hkept Hpay ops.
  induction ops as [|o ops IH]; intros s b l Hl; simpl.
  - eauto.
  - destruct (step_loan_kept s o b l Hl) as (l1 & Hl1 & Hstep).
    destruct (IH _ _ _ Hl1) as (l' & Hl' & HR).
    exists l'. split; [exact Hl'|].
    apply (Htrans l l1 l'); [|exact HR].
    destruct Hstep as [K|(Ha & amount & now & r & Hm)]; eauto.
Qed.

(** ** The ledger over time *)

(** Across every sequence of operations the payment history of a stored
    loan only grows at its end; [installments_paid] grows by the number of
    entries added, the entries are numbered consecutively from
    [installments_paid + 1], and [total_paid] is the old [total_paid] with
    the amounts of the added entries added in order. *)
Theorem payment_history_is_the_ledger (s : db) (ops : list op) (b : string)
    (l : LoanDetails.t) :
  loans s !! b = Some l →
  ∃ l' added,
    loans (run s ops) !! b = Some l'
    ∧ LoanDetails.payment_history l' = LoanDetails.payment_history l ++ added
    ∧ LoanDetails.installments_paid l'
      = LoanDetails.installments_paid l + Z.of_nat (length added)
    ∧ pr_installment_no <$> added
      = seqZ (LoanDetails.installments_paid l + 1) (Z.of_nat (length added))
    ∧ LoanDetails.total_paid l' = paid_after (LoanDetails.total_paid l) added.
Proof.
  intros Hl.
  destruct (run_loan_ind
    (λ l l', ∃ added,
       LoanDetails.payment_history l'
       = LoanDetails.payment_history l ++ added
       ∧ LoanDetails.installments_paid l'
         = LoanDetails.installments_paid l + Z.of_nat (length added)
       ∧ pr_installment_no <$> added
         = seqZ (LoanDetails.installments_paid l + 1) (Z.of_nat (length added))
       ∧ LoanDetails.total_paid l'
         = paid_after (LoanDetails.total_paid l) added)) with ops s b l
    as (l' & Hl' & added & H); [..|exact Hl|by exists l', added].
  - intros l0. exists []. rewrite app_nil_r. simpl.
    repeat split; try done; lia.
  - intros l1 l2 l3 (a1 & H1 & I1 & N1 & P1) (a2 & H2 & I2 & N2 & P2).
    exists (a1 ++ a2).
    rewrite H2, H1, I2, I1, P2, P1, length_app, fmap_app, N1, N2.
    repeat split.
    + by rewrite app_assoc.
    + lia.
    + rewrite Nat2Z.inj_add, seqZ_app by lia. do 2 f_equal. lia.
    + unfold paid_after. by rewrite foldl_app.
  - intros l0 l1 ((_ & _ & Eip & Etp & _ & _ & Eh & _) & _).
    exists []. rewrite app_nil_r, Eh, Eip, Etp. simpl.
    repeat split; try done; lia.
  - intros l0 l1 amount now r _ Hm.
    destruct (make_payment_inv _ _ _ _ _ Hm)
      as (x & next & Hx & _ & Hip & Hpaid & _ & _ & _ & Hh & _).
    eexists [_]. split; [exact Hh|]. simpl.
    split; [lia|]. split; [by rewrite Hip|].
    rewrite Hpaid. unfold record_value. simpl. by rewrite Hx.
Qed.

Lemma payment_history_is_the_ledger_witness :
  ∃ l' added,
    loans (run store1 (replicate 3 (RecordPayment "u1" "b1" (pay 150)
                                      jan_2025 "b2"))) !! "b1" = Some l'
    ∧ LoanDetails.payment_history l' = LoanDetails.payment_history loan1 ++ added
    ∧ LoanDetails.installments_paid l'
      = LoanDetails.installments_paid loan1 + Z.of_nat (length added)
    ∧ pr_installment_no <$> added
      = seqZ (LoanDetails.installments_paid loan1 + 1)
             (Z.of_nat (length added))
    ∧ LoanDetails.total_paid l'
      = paid_after (LoanDetails.total_paid loan1) added.
Proof.
  apply (payment_history_is_the_ledger store1). vm_compute. reflexivity.
Defined.

(** Once a loan is completed, no sequence of operations changes its
    ledger: counters, totals, dates of payment and history stay as they
    are. *)
Theorem completed_loan_is_frozen (s : db) (ops : list op) (b : string)
    (l : LoanDetails.t) :
  loans s !! b = Some l →
  LoanDetails.is_active l = false →
  ∃ l', loans (run s ops) !! b = Some l' ∧ same_ledger l l'.
Proof.
  intros Hl Ha.
  destruct (run_loan_ind
    (λ l l', LoanDetails.is_active l = false → same_ledger l l'))
    with ops s b l as (l' & Hl' & H); [..|exact Hl|eauto].
  - intros l0 _. unfold same_ledger. by repeat split.
  - intros l1 l2 l3 H12 H23 H1.
    destruct (H12 H1) as (A1&A2&A3&A4&A5&A6&A7&A8).
    destruct H23 as (B1&B2&B3&B4&B5&B6&B7&B8); [congruence|].
    unfold same_ledger. rewrite B1, B2, B3, B4, B5, B6, B7, B8.
    by repeat split.
  - intros l0 l1 (K & _) _. exact K.
  - intros l0 l1 amount now r Ht _ Hf. congruence.
Qed.

Lemma completed_loan_is_frozen_witness :
  ∃ l', loans (run store2 [RecordPayment "u1" "b1" (pay 5) jan_2025 "b3";
                           Recompute "u1" "b1" (set_monthly 70)])
          !! "b1" = Some l'
        ∧ same_ledger loan2 l'.
Proof.
  apply (completed_loan_is_frozen store2); vm_compute; reflexivity.
Defined.

(** No operation ever changes the principal, the number of installments
    or the start date of a stored loan, nor an expected completion date
    that is set. *)
Theorem schedule_is_immutable (s : db) (ops : list op) (b : string)
    (l : LoanDetails.t) :
  loans s !! b = Some l →
  ∃ l', loans (run s ops) !! b = Some l'
        ∧ LoanDetails.total_amount l' = LoanDetails.total_amount l
        ∧ LoanDetails.total_installments l'
          = LoanDetails.total_installments l
        ∧ LoanDetails.loan_start_date l' = LoanDetails.loan_start_date l
        ∧ (∀ d, LoanDetails.expected_completion_date l = Some d →
                LoanDetails.expected_completion_date l' = Some d).
Proof.
  intros Hl.
  apply (run_loan_ind
    (λ l l', LoanDetails.total_amount l' = LoanDetails.total_amount l
             ∧ LoanDetails.total_installments l'
               = LoanDetails.total_installments l
             ∧ LoanDetails.loan_start_date l' = LoanDetails.loan_start_date l
             ∧ (∀ d, LoanDetails.expected_completion_date l = Some d →
                     LoanDetails.expected_completion_date l' = Some d)));
    [..|exact Hl].
  - intros l0. by repeat split.
  - intros l1 l2 l3 (A1 & A2 & A3 & A4) (B1 & B2 & B3 & B4).
    rewrite B1, B2, B3. repeat split; eauto.
  - intros l0 l1 ((E1 & E2 & _ & _ & E3 & _) & E4 & _). by repeat split.
  - intros l0 l1 amount now r _ Hm.
    destruct (make_payment_frame _ _ _ _ _ Hm)
      as (_ & _ & E1 & _ & _ & E2 & E3 & E4 & _).
    rewrite E1, E2, E3, E4. by repeat split.
Qed.

Lemma schedule_is_immutable_witness :
  ∃ l', loans (run store1 [RecordPayment "u1" "b1" (pay 5) jan_2025 "b2";
                           Recompute "u1" "b1" (set_monthly 70)])
          !! "b1" = Some l'
        ∧ LoanDetails.total_amount l' = 1200%float
        ∧ LoanDetails.total_installments l' = 12
        ∧ LoanDetails.loan_start_date l' = jan_2025
        ∧ (∀ d, LoanDetails.expected_completion_date loan1 = Some d →
                LoanDetails.expected_completion_date l' = Some d).
Proof.
  apply (schedule_is_immutable store1 _ "b1" loan1). vm_compute. reflexivity.
Defined.

Lemma build_loan_derived (b : string) (data : loan_request) (now : datetime)
    (new_id : string) (l : LoanDetails.t) :
  build_loan b data now new_id = Ok l →
  has_amounts l = true →
  derived_in_step l.
Proof.
  intros Hb Hg. unfold build_loan in Hb.
  apply bind_ok in Hb as (ta & _ & Hb).
  apply bind_ok in Hb as (mp & _ & Hb).
  apply bind_ok in Hb as (ir & _ & Hb).
  apply bind_ok in Hb as (ti & _ & Hb).
  apply bind_ok in Hb as (ip & _ & Hb).
  apply bind_ok in Hb as (tp & _ & Hb).
  apply bind_ok in Hb as (l0 & _ & Hb).
  destruct (calculate_frame _ _ Hb)
    as (_ & _ & Fa & Fb & _ & _ & Fip & Ftp & Fst & _).
  assert (has_amounts l0 = true) as Hg0.
  { revert Hg. unfold has_amounts. by rewrite Fa, Fb. }
  destruct (calculate_derived _ _ Hb Hg0) as (Hrem & Hnext & _).
  unfold derived_in_step. by rewrite Fa, Ftp, Fst, Fip.
Qed.

(** A loan created by [create_loan_details] with a non-zero stored
    [total_amount] and [monthly_payment] has, after every sequence of
    operations, [amount_remaining = total_amount - total_paid] and
    [next_payment_date] equal to the start date plus
    [installments_paid + 1] months. *)
Theorem created_loan_stays_in_step (s s' : db) (u b : string)
    (data : loan_request) (now : datetime) (new_id : string)
    (l : LoanDetails.t) (ops : list op) :
  create_loan_details s u b data now new_id = (s', (201, LoanCreated l)) →
  has_amounts l = true →
  ∃ l', loans (run s' ops) !! b = Some l' ∧ derived_in_step l'.
Proof.
  intros H Hg.
  assert (loans s' !! b = Some l ∧ derived_in_step l) as (Hl & Hd).
  { apply create_loan_details_201_store in H as (bill & _ & Hmiss & Hb & ->).
    split; [apply lookup_insert_eq|].
    by apply (build_loan_derived b data now new_id). }
  destruct (run_loan_ind (λ l l', derived_in_step l → derived_in_step l'))
    with ops s' b l as (l' & Hl' & HR); [..|exact Hl|eauto].
  - done.
  - eauto.
  - intros l0 l1 (_ & _ & K). exact K.
  - intros l0 l1 amount t r _ Hm _.
    destruct (make_payment_inv _ _ _ _ _ Hm)
      as (x & next & _ & Hnext & Hip & _ & Hrem & _ & Hnp & _).
    destruct (make_payment_frame _ _ _ _ _ Hm)
      as (_ & _ & Hta & _ & _ & _ & Hst & _).
    unfold derived_in_step. rewrite Hta, Hst, Hip. eauto.
Qed.

Lemma created_loan_stays_in_step_witness :
  ∃ l', loans (run store1 (replicate 5 (RecordPayment "u1" "b1" ∅ jan_2025
                                          "b2"))) !! "b1" = Some l'
        ∧ derived_in_step l'.
Proof.
  apply (created_loan_stays_in_step store0 store1 "u1" "b1"
           (emi_request 1200 100 12 0 0) jan_2025 "L1" loan1);
    vm_compute; reflexivity.
Defined.

(** ** [update_loan_details] *)






(** ** The bill as a view of its loan *)

Lemma advance_keeps_bills (bs bs' : gmap string Bill.t) (u : string)
    (bill : Bill.t) (loan : LoanDetails.t) (new_id : string)
    (created : option Bill.t) (k : string) (x : Bill.t) :
  advance_recurring_bill bs u bill loan new_id = Ok (bs', created) →
  bs !! k = Some x → bs' !! k = Some x.
Proof.
  intros H Hk.
  destruct (advance_inv _ _ _ _ _ _ _ H)
    as [[_ ->]|(due & _ & _ & _ & _ & _ & Hnew & ->)]; [done|].
  rewrite lookup_insert_ne; [done|]. congruence.
Qed.

Lemma create_loan_details_cases (s : db) (u b : string)
    (data : loan_request) (now : datetime) (new_id : string) :
  let s' := (create_loan_details s u b data now new_id).1 in
  s' = s
  ∨ ∃ bill l,
      s' = mk_db (<[b := attach_loan bill (LoanDetails.monthly_payment l)]>
                    (bills s))
                 (<[b := l]> (loans s)).
Proof.
  unfold create_loan_details.
  destruct (find_bill s b u) as [bill|]; [|by left].
  destruct (loans s !! b); [by left|].
  destruct (missing (req_fields data)); [|by left].
  destruct (build_loan b data now new_id) as [l|e]; [|by left].
  right. by exists bill, l.
Qed.

Lemma update_loan_details_cases (s : db) (u b : string)
    (data : loan_update) :
  let s' := (update_loan_details s u b data).1 in
  s' = s
  ∨ ∃ bill l bill' l',
      bills s !! b = Some bill
      ∧ loans s !! b = Some l
      ∧ apply_update bill l data = Ok (bill', l')
      ∧ s' = mk_db (<[b := bill']> (bills s)) (<[b := l']> (loans s)).
Proof.
  unfold update_loan_details.
  destruct (find_bill s b u) as [bill|] eqn:Hfind; [|by left].
  destruct (loans s !! b) as [l|] eqn:Hl; [|by left].
  destruct (apply_update bill l data) as [[bill' l']|e] eqn:Hu; [|by left].
  right. exists bill, l, bill', l'.
  split; [exact (find_bill_lookup _ _ _ _ Hfind)|]. by repeat split.
Qed.

Lemma record_loan_payment_cases (s : db) (u b : string)
    (data : gmap string json) (now : datetime) (new_id : string) :
  let s' := (record_loan_payment s u b data now new_id).1 in
  s' = s
  ∨ ∃ bill l l' r created,
      bills s !! b = Some bill
      ∧ loans s !! b = Some l
      ∧ LoanDetails.make_payment l (default JNull (data !! "amount")) now
        = Ok (l', r)
      ∧ advance_recurring_bill (<[b := mark_paid bill]> (bills s)) u
                               (mark_paid bill) l' new_id
        = Ok (bills s', created)
      ∧ loans s' = <[b := l']> (loans s).
Proof.
  destruct (record_loan_payment s u b data now new_id) as [s' [c bd]] eqn:H.
  simpl. destruct (decide (c = 200)) as [->|Hc].
  - apply record_loan_payment_200 in H
      as (bill & l & l' & r & created & Hfind & Hl & _ & Hm & Hadv & Hs & _).
    right. exists bill, l, l', r, created.
    split; [exact (find_bill_lookup _ _ _ _ Hfind)|]. by repeat split.
  - left. revert H. unfold record_loan_payment.
    destruct (find_bill s b u); [|by intros [= <- _ _]].
    destruct (loans s !! b); [|by intros [= <- _ _]].
    destruct (negb _); [by intros [= <- _ _]|].
    destruct (pay_and_advance _ _ _ _ _ _ _ _) as [[[s1 r] l']|e];
      [|by intros [= <- _ _]].
    intros [= _ <- _]. done.
Qed.

Lemma apply_update_amount (bill bill' : Bill.t) (l l' : LoanDetails.t)
    (data : loan_update) :
  apply_update bill l data = Ok (bill', l') →
  Bill.amount bill = LoanDetails.monthly_payment l →
  Bill.amount bill' = LoanDetails.monthly_payment l'.
Proof.
  unfold apply_update. intros H Hsync.
  apply bind_ok in H as ([b1 l1] & H1 & H).
  apply bind_ok in H as (l2 & H2 & H).
  apply bind_ok in H as (l3 & H3 & H). injection H as <- <-.
  destruct (calculate_frame _ _ H3) as (_ & _ & _ & -> & _).
  assert (Bill.amount b1 = LoanDetails.monthly_payment l1) as E1.
  { destruct (upd_fields data !! "monthly_payment") as [v|].
    - apply bind_ok in H1 as (x & _ & H1). by injection H1 as <- <-.
    - by injection H1 as <- <-. }
  assert (LoanDetails.monthly_payment l2 = LoanDetails.monthly_payment l1)
    as E2.
  { destruct (upd_fields data !! "interest_rate") as [v|].
    - apply bind_ok in H2 as (x & _ & H2). by injection H2 as <-.
    - by injection H2 as <-. }
  rewrite E1, <- E2. by destruct (upd_notes data).
Qed.

Lemma step_bills_show_loans (s : db) (o : op) :
  bills_show_loans s → bills_show_loans (step s o).
Proof.
  intros Hinv.
  destruct o as [u b data now nid|u b data|u b data now nid|u b nid]; simpl.
  - destruct (create_loan_details_cases s u b data now nid)
      as [->|(bill & l & ->)]; [done|].
    intros k lk. simpl. destruct (decide (b = k)) as [<-|Hne].
    + rewrite !lookup_insert_eq. intros [= <-]. eauto.
    + rewrite !lookup_insert_ne by done. apply Hinv.
  - destruct (update_loan_details_cases s u b data)
      as [->|(bill & l & bill' & l' & Hb & Hl & Hu & ->)]; [done|].
    intros k lk. simpl. destruct (decide (b = k)) as [<-|Hne].
    + rewrite !lookup_insert_eq. intros [= <-].
      exists bill'. split; [done|].
      apply (apply_update_amount _ _ _ _ _ Hu).
      destruct (Hinv _ _ Hl) as (bill0 & Hb0 & Ha). congruence.
    + rewrite !lookup_insert_ne by done. apply Hinv.
  - destruct (record_loan_payment_cases s u b data now nid)
      as [->|(bill & l & l' & r & created & Hb & Hl & Hm & Hadv & Hs)];
      [done|].
    destruct (make_payment_frame _ _ _ _ _ Hm) as (_ & _ & _ & Emp & _).
    intros k lk. rewrite Hs. destruct (decide (b = k)) as [<-|Hne].
    + rewrite lookup_insert_eq. intros [= <-].
      exists (mark_paid bill). split.
      * apply (advance_keeps_bills _ _ _ _ _ _ _ _ _ Hadv).
        apply lookup_insert_eq.
      * destruct (Hinv _ _ Hl) as (bill0 & Hb0 & Ha).
        rewrite Emp. simpl. congruence.
    + rewrite lookup_insert_ne by done. intros Hk.
      destruct (Hinv _ _ Hk) as (bill0 & Hb0 & Ha).
      exists bill0. split; [|done].
      apply (advance_keeps_bills _ _ _ _ _ _ _ _ _ Hadv).
      by rewrite lookup_insert_ne.
  - destruct (find_bill s b u) as [bill|]; [|done].
    destruct (loans s !! b) as [l|]; [|done].
    destruct (advance_recurring_bill _ _ _ _ _) as [[bs created]|] eqn:Hadv;
      [|done].
    intros k lk Hk. simpl in *.
    destruct (Hinv _ _ Hk) as (bill0 & Hb0 & Ha).
    exists bill0. split; [|done].
    by apply (advance_keeps_bills _ _ _ _ _ _ _ _ _ Hadv).
Qed.

(** In a store where every loan has its bill and the bill shows the
    loan's monthly payment as its amount, this stays so across every
    sequence of operations; in particular it holds in every store grown
    from one without loans. *)
Theorem bills_always_show_loans (s : db) (ops : list op) :
  bills_show_loans s → bills_show_loans (run s ops).
Proof.
  revert s. induction ops as [|o ops IH]; intros s Hinv; simpl; [done|].
  apply IH. by apply step_bills_show_loans.
Qed.

Lemma bills_always_show_loans_witness :
  bills_show_loans
    (run store0 [Initialize "u1" "b1" (emi_request 1200 100 12 0 0) jan_2025
                   "L1";
                 Recompute "u1" "b1" (set_monthly 70);
                 RecordPayment "u1" "b1" ∅ jan_2025 "b2"]).
Proof.
  apply bills_always_show_loans. intros k l. vm_compute. discriminate.
Defined.

(** ** Calendar months *)

Lemma month_index_unique (y m t : Z) :
  1 ≤ m ≤ 12 → 12 * y + (m - 1) = t → y = t / 12 ∧ m = t mod 12 + 1.
Proof.
  intros Hm Ht. split.
  - apply (Z.div_unique t 12 y (m - 1)); lia.
  - enough (m - 1 = t mod 12) by lia.
    apply (Z.mod_unique t 12 y (m - 1)); lia.
Qed.

Lemma relativedelta_spec (n : Z) :
  let '(years, months) := relativedelta n in
  12 * years + months = n ∧ -11 ≤ months ≤ 11.
Proof.
  unfold relativedelta. destruct (11 <? Z.abs n) eqn:Hbig.
  - apply Z.ltb_lt in Hbig.
    destruct n as [|p|p]; simpl Z.sgn; simpl Z.abs in Hbig; [lia|..].
    + rewrite !Z.mul_1_r.
      pose proof (Z.div_mod (Z.pos p) 12 ltac:(lia)).
      pose proof (Z.mod_pos_bound (Z.pos p) 12 ltac:(lia)). lia.
    + replace (Z.neg p * -1) with (Z.pos p) by lia.
      pose proof (Z.div_mod (Z.pos p) 12 ltac:(lia)).
      pose proof (Z.mod_pos_bound (Z.pos p) 12 ltac:(lia)). lia.
  - apply Z.ltb_ge in Hbig. lia.
Qed.

Lemma add_months_closed_form (dt : datetime) (n : Z) :
  1 ≤ month dt ≤ 12 →
  let t := 12 * year dt + (month dt - 1) + n in
  add_months dt n
  = if (1 <=? t / 12) && (t / 12 <=? 9999)
    then Ok (mk_datetime (t / 12) (t mod 12 + 1)
               (Z.min (days_in_month (t / 12) (t mod 12 + 1)) (day dt))
               (time_of_day dt))
    else Raise ValueError.
Proof.
  intros Hm t. unfold add_months.
  pose proof (relativedelta_spec n) as Hrd.
  destruct (relativedelta n) as [years months]. destruct Hrd as [Hn Hb].
  assert (∃ y m,
            (if months =? 0 then (year dt + years, month dt + months)
             else if 12 <? month dt + months
                  then (year dt + years + 1, month dt + months - 12)
                  else if month dt + months <? 1
                       then (year dt + years - 1, month dt + months + 12)
                       else (year dt + years, month dt + months)) = (y, m)
            ∧ 1 ≤ m ≤ 12 ∧ 12 * y + (m - 1) = t) as (y & m & -> & Hm' & Ht).
  { subst t. destruct (Z.eqb_spec months 0).
    - eexists _, _. split; [done|]. lia.
    - destruct (Z.ltb_spec 12 (month dt + months)).
      + eexists _, _. split; [done|]. lia.
      + destruct (Z.ltb_spec (month dt + months) 1);
          eexists _, _; (split; [done|]); lia. }
  destruct (month_index_unique y m t Hm' Ht) as [-> ->].
  reflexivity.
Qed.

(** The month arithmetic behind [next_payment_date],
    [expected_completion_date] and the due date of next month's bill: when
    it succeeds the date has moved by exactly [n] calendar months (the
    year carries, also backwards), the month is a month again, the day is
    the old day clipped to the length of the month reached, the time of
    day is kept and the year is within 1..9999; and it succeeds exactly
    when the year reached is within 1..9999. *)
Theorem add_months_moves_months (dt : datetime) (n : Z) :
  1 ≤ month dt ≤ 12 →
  (∀ dt', add_months dt n = Ok dt' →
     12 * year dt' + month dt' = 12 * year dt + month dt + n
     ∧ 1 ≤ month dt' ≤ 12
     ∧ 1 ≤ year dt' ≤ 9999
     ∧ day dt' = Z.min (days_in_month (year dt') (month dt')) (day dt)
     ∧ time_of_day dt' = time_of_day dt)
  ∧ ((∃ dt', add_months dt n = Ok dt')
     ↔ 1 ≤ (12 * year dt + (month dt - 1) + n) / 12 ≤ 9999).
Proof.
  intros Hm. rewrite (add_months_closed_form dt n Hm). cbv zeta.
  set (t := 12 * year dt + (month dt - 1) + n).
  pose proof (Z.div_mod t 12 ltac:(lia)) as Hdm.
  pose proof (Z.mod_pos_bound t 12 ltac:(lia)) as Hmod.
  destruct (Z.leb_spec 1 (t / 12)), (Z.leb_spec (t / 12) 9999); simpl.
  - split.
    + intros dt' [= <-]. simpl. repeat split; lia.
    + split; [lia | eauto].
  - split; [done|]. split; [by intros [? ?] | lia].
  - split; [done|]. split; [by intros [? ?] | lia].
  - split; [done|]. split; [by intros [? ?] | lia].
Qed.

Lemma add_months_moves_months_witness :
  ∃ dt', add_months (mk_datetime 2025 1 31 0) 13 = Ok dt'.
Proof.
  apply (proj2 (add_months_moves_months (mk_datetime 2025 1 31 0) 13
                  ltac:(simpl; lia))).
  vm_compute. split; discriminate.
Defined.

(** ** Days between dates *)

Lemma days_before_year_succ (y : Z) :
  days_before_year (y + 1)
  = days_before_year y + 365 + (if isleap y then 1 else 0).
Proof.
  unfold days_before_year, isleap.
  replace (y + 1 - 1) with y by lia.
  destruct (Z.eqb_spec (y mod 4) 0), (Z.eqb_spec (y mod 100) 0),
           (Z.eqb_spec (y mod 400) 0); simpl;
    Z.div_mod_to_equations; lia.
Qed.

Lemma days_before_year_mono (y1 y2 : Z) :
  y1 ≤ y2 → days_before_year y1 ≤ days_before_year y2.
Proof.
  unfold days_before_year. intros H. Z.div_mod_to_equations. lia.
Qed.

Lemma month_cases (m : Z) :
  1 ≤ m ≤ 12 →
  m = 1 ∨ m = 2 ∨ m = 3 ∨ m = 4 ∨ m = 5 ∨ m = 6 ∨ m = 7 ∨ m = 8 ∨ m = 9
  ∨ m = 10 ∨ m = 11 ∨ m = 12.
Proof. lia. Qed.

(** The days of one year are numbered 1 to 365, or 366. *)
Lemma day_of_year_bounds (d : datetime) :
  valid_date d →
  1 ≤ days_before_month (year d) (month d) + day d
    ≤ 365 + (if isleap (year d) then 1 else 0).
Proof.
  destruct d as [y m dd tod]. unfold valid_date. simpl.
  intros (_ & Hm & Hd).
  unfold days_before_month.
  destruct (month_cases m Hm) as
    [->|[->|[->|[->|[->|[->|[->|[->|[->|[->|[->| ->]]]]]]]]]]];
    simpl in *; destruct (isleap y); simpl in *; lia.
Qed.

Lemma day_of_year_mono (y m1 m2 d1 d2 : Z) :
  1 ≤ m1 → m1 < m2 → m2 ≤ 12 →
  d1 ≤ days_in_month y m1 → 1 ≤ d2 →
  days_before_month y m1 + d1 < days_before_month y m2 + d2.
Proof.
  intros H1 H12 H2 Hd1 Hd2. unfold days_before_month.
  destruct (month_cases m1 ltac:(lia)) as
    [->|[->|[->|[->|[->|[->|[->|[->|[->|[->|[->| ->]]]]]]]]]]];
    destruct (month_cases m2 ltac:(lia)) as
    [->|[->|[->|[->|[->|[->|[->|[->|[->|[->|[->| ->]]]]]]]]]]];
    try lia; simpl in *; destruct (isleap y); simpl in *; lia.
Qed.

Lemma toordinal_before (d1 d2 : datetime) :
  valid_date d1 → valid_date d2 → date_before d1 d2 →
  toordinal d1 < toordinal d2.
Proof.
  intros V1 V2 Hlt. unfold toordinal.
  pose proof (day_of_year_bounds d1 V1) as B1.
  pose proof (day_of_year_bounds d2 V2) as B2.
  destruct Hlt as [Hy|[Hy [Hm|[Hm Hd]]]].
  - pose proof (days_before_year_succ (year d1)) as Hs.
    pose proof (days_before_year_mono (year d1 + 1) (year d2)
                  ltac:(lia)). lia.
  - rewrite <- Hy in *.
    destruct V1 as (_ & M1 & D1), V2 as (_ & M2 & D2).
    pose proof (day_of_year_mono (year d1) (month d1) (month d2)
                  (day d1) (day d2)). lia.
  - rewrite Hy, Hm. lia.
Qed.

(** [days_until_due] counts calendar days: it is negative exactly when the
    due date is before today's date, zero exactly when it is today, and
    positive exactly when it is after today. *)
Theorem days_until_due_sign (b : Bill.t) (now : datetime) :
  valid_date (Bill.due_date b) → valid_date now →
  (days_until_due b now < 0 ↔ date_before (Bill.due_date b) now)
  ∧ (days_until_due b now = 0
     ↔ year (Bill.due_date b) = year now
       ∧ month (Bill.due_date b) = month now
       ∧ day (Bill.due_date b) = day now)
  ∧ (0 < days_until_due b now ↔ date_before now (Bill.due_date b)).
Proof.
  intros Vd Vn. unfold days_until_due.
  set (d := Bill.due_date b) in *.
  pose proof (toordinal_before d now Vd Vn) as Hlt.
  pose proof (toordinal_before now d Vn Vd) as Hgt.
  assert (year d = year now ∧ month d = month now ∧ day d = day now →
          toordinal d = toordinal now) as Heq.
  { intros (Ey & Em & Ed). unfold toordinal. by rewrite Ey, Em, Ed. }
  assert (date_before d now
          ∨ (year d = year now ∧ month d = month now ∧ day d = day now)
          ∨ date_before now d) as Htri.
  { unfold date_before. lia. }
  destruct Htri as [T|[T|T]];
    [pose proof (Hlt T) | pose proof (Heq T) | pose proof (Hgt T)];
    clear Hlt Heq Hgt; unfold date_before in *; lia.
Qed.

Lemma days_in_month_bounds (y m : Z) : 28 ≤ days_in_month y m ≤ 31.
Proof.
  unfold days_in_month. destruct (isleap y); repeat case_match; lia.
Qed.

(** One month later is a date again, 28 to 31 days later. *)
Lemma add_months_one (d d' : datetime) :
  valid_date d → add_months d 1 = Ok d' →
  valid_date d' ∧ 28 ≤ toordinal d' - toordinal d ≤ 31.
Proof.
  intros (Hy & Hm & Hd) H.
  rewrite add_months_closed_form in H by done. cbv zeta in H.
  destruct (decide (month d = 12)) as [E|E].
  - destruct (month_index_unique (year d + 1) 1
                (12 * year d + (month d - 1) + 1)) as [Ey Em]; [lia..|].
    rewrite <- Ey, <- Em in H.
    destruct (_ && _) eqn:Hrange; [|done]. injection H as <-.
    apply andb_true_iff in Hrange as [R1 R2].
    apply Z.leb_le in R1, R2. clear Ey Em.
    unfold valid_date, toordinal, MINYEAR, MAXYEAR. simpl.
    rewrite days_before_year_succ, E.
    change (days_in_month (year d + 1) 1) with 31.
    rewrite E in Hd. change (days_in_month (year d) 12) with 31 in Hd.
    unfold days_before_month. simpl. destruct (isleap (year d)); lia.
  - destruct (month_index_unique (year d) (month d + 1)
                (12 * year d + (month d - 1) + 1)) as [Ey Em]; [lia..|].
    rewrite <- Ey, <- Em in H.
    destruct (_ && _) eqn:Hrange; [|done]. injection H as <-.
    unfold valid_date, toordinal. simpl.
    pose proof (days_in_month_bounds (year d) (month d + 1)) as Hb.
    clear Ey Em Hrange. split; [lia|].
    revert Hd Hb. unfold days_before_month.
    destruct (month_cases (month d) Hm) as
      [Hc|[Hc|[Hc|[Hc|[Hc|[Hc|[Hc|[Hc|[Hc|[Hc|[Hc|Hc]]]]]]]]]]];
      rewrite Hc in *; try done; simpl; destruct (isleap (year d)); simpl;
      lia.
Qed.

(** The bill generated for next month carries a valid due date, 28 to 31
    days after the due date of the bill it follows. *)
Theorem next_bill_due_within_a_month (bs bs' : gmap string Bill.t)
    (u : string) (bill nb : Bill.t) (loan : LoanDetails.t)
    (new_id : string) :
  advance_recurring_bill bs u bill loan new_id = Ok (bs', Some nb) →
  valid_date (Bill.due_date bill) →
  valid_date (Bill.due_date nb)
  ∧ 28 ≤ days_until_due nb (Bill.due_date bill) ≤ 31.
Proof.
  intros H V.
  destruct (advance_inv _ _ _ _ _ _ _ H)
    as [[[=] _]|(due & [= ->] & _ & _ & Hd & _)].
  unfold days_until_due. simpl. by apply add_months_one.
Qed.

Lemma next_bill_due_within_a_month_witness :
  valid_date (Bill.due_date next_car_bill)
  ∧ 28 ≤ days_until_due next_car_bill (mk_datetime 2025 1 5 0) ≤ 31.
Proof.
  apply (next_bill_due_within_a_month (bills store1)
           (<["b2" := next_car_bill]> (bills store1)) "u1"
           (attach_loan car_bill 100%float) next_car_bill loan1 "b2").
  - vm_compute. reflexivity.
  - vm_compute. repeat split; discriminate.
Defined.

Lemma days_until_due_sign_witness :
  days_until_due next_car_bill jan_2025 < 0
  ↔ date_before (Bill.due_date next_car_bill) jan_2025.
Proof.
  apply (days_until_due_sign next_car_bill jan_2025);
    vm_compute; repeat split; discriminate.
Defined.

(** ** The model method on its own *)



(** The interest rate is informational: neither recompute nor a payment
    reads it. Changing it first and computing afterwards gives what
    computing first and changing it afterwards gives. *)
Theorem interest_rate_is_not_used (l : LoanDetails.t) (x : float) :
  LoanDetails.calculate_loan_details (with_interest_rate x l)
  = with_interest_rate x <$> LoanDetails.calculate_loan_details l
  ∧ ∀ amount now,
      LoanDetails.make_payment (with_interest_rate x l) amount now
      = (λ p, (with_interest_rate x p.1, p.2))
          <$> LoanDetails.make_payment l amount now.
Proof.
  split.
  - unfold LoanDetails.calculate_loan_details.
    change (LoanDetails.total_amount (with_interest_rate x l))
      with (LoanDetails.total_amount l).
    change (LoanDetails.monthly_payment (with_interest_rate x l))
      with (LoanDetails.monthly_payment l).
    destruct (_ && _); [|done]. simpl.
    destruct (LoanDetails.expected_completion_date l) as [d|]; simpl.
    + by destruct (add_months _ _).
    + case_bool_decide; simpl.
      * destruct (add_months _ (LoanDetails.total_installments l)); simpl;
          [|done].
        by destruct (add_months _ _).
      * by destruct (add_months _ _).
  - intros amount now. unfold LoanDetails.make_payment. simpl.
    destruct (float_add_json _ _); simpl; [|done].
    by destruct (add_months _ _).
Qed.

(** ** Repeating a request *)

(** Once a loan is attached to a bill, every further
    [create_loan_details] for that bill by its owner is answered 400
    "Loan details already exist for this bill", whatever the body, and
    stores nothing: a bill never gets a second loan. *)
Theorem create_loan_details_only_once (s s1 : db) (u b : string)
    (data data' : loan_request) (now now' : datetime)
    (new_id new_id' : string) (bd : body) :
  create_loan_details s u b data now new_id = (s1, (201, bd)) →
  create_loan_details s1 u b data' now' new_id'
  = (s1, (400, Message "Loan details already exist for this bill")).
Proof.
  intros H.
  assert (∃ l, bd = LoanCreated l) as (l & ->).
  { apply create_loan_details_201 in H
      as (? & l & ? & ? & ? & ? & ? & -> & ?). eauto. }
  apply create_loan_details_201_store in H as (bill & Hfind & _ & _ & ->).
  unfold create_loan_details at 1.
  assert (find_bill
            (mk_db (<[b := attach_loan bill (LoanDetails.monthly_payment l)]>
                      (bills s)) (<[b := l]> (loans s))) b u
          = Some (attach_loan bill (LoanDetails.monthly_payment l))) as ->.
  { revert Hfind. unfold find_bill. simpl. rewrite lookup_insert_eq.
    destruct (bills s !! b) as [bill0|]; [|done].
    case_bool_decide; [|done]. intros [= ->]. simpl.
    by rewrite bool_decide_eq_true_2. }
  simpl. by rewrite lookup_insert_eq.
Qed.

Lemma create_loan_details_only_once_witness :
  create_loan_details store1 "u1" "b1" (emi_request 50 5 10 0 0) jan_2025
    "L2"
  = (store1, (400, Message "Loan details already exist for this bill")).
Proof.
  apply (create_loan_details_only_once store0 store1 "u1" "b1"
           (emi_request 1200 100 12 0 0) _ jan_2025 _ "L1" _
           (LoanCreated loan1)).
  vm_compute. reflexivity.
Defined.

Lemma with_monthly_payment_same (l : LoanDetails.t) :
  with_monthly_payment (LoanDetails.monthly_payment l) l = l.
Proof. by destruct l. Qed.

Lemma with_interest_rate_same (l : LoanDetails.t) :
  with_interest_rate (LoanDetails.interest_rate l) l = l.
Proof. by destruct l. Qed.

Lemma with_notes_same (l : LoanDetails.t) :
  with_notes (LoanDetails.notes l) l = l.
Proof. by destruct l. Qed.

Lemma with_amount_same (b : Bill.t) : with_amount (Bill.amount b) b = b.
Proof. by destruct b. Qed.

Lemma apply_update_again (bill bill' : Bill.t) (l l' : LoanDetails.t)
    (data : loan_update) :
  apply_update bill l data = Ok (bill', l') →
  apply_update bill' l' data = Ok (bill', l')
  ∧ Bill.user_id bill' = Bill.user_id bill.
Proof.
  unfold apply_update at 1. intros H.
  apply bind_ok in H as ([b1 l1] & H1 & H).
  apply bind_ok in H as (l2 & H2 & H).
  apply bind_ok in H as (l3 & H3 & H). injection H as <- <-.
  destruct (calculate_frame _ _ H3)
    as (_ & _ & _ & Emp & Eir & _ & _ & _ & _ & _ & _ & _ & Eno).
  assert (Bill.user_id b1 = Bill.user_id bill
          ∧ match upd_fields data !! "monthly_payment" with
            | Some v => py_float v = Ok (LoanDetails.monthly_payment l1)
                        ∧ Bill.amount b1 = LoanDetails.monthly_payment l1
            | None => True
            end) as (Hu & G).
  { destruct (upd_fields data !! "monthly_payment") as [v|].
    - apply bind_ok in H1 as (x & Hx & H1). by injection H1 as <- <-.
    - by injection H1 as <- <-. }
  assert (LoanDetails.monthly_payment l2 = LoanDetails.monthly_payment l1
          ∧ match upd_fields data !! "interest_rate" with
            | Some v => py_float v = Ok (LoanDetails.interest_rate l2)
            | None => True
            end) as (F1 & F).
  { destruct (upd_fields data !! "interest_rate") as [v|].
    - apply bind_ok in H2 as (x & Hx & H2). by injection H2 as <-.
    - by injection H2 as <-. }
  set (l2' := match upd_notes data with
              | Some n => with_notes n l2
              | None => l2
              end) in *.
  assert (LoanDetails.monthly_payment l2' = LoanDetails.monthly_payment l2
          ∧ LoanDetails.interest_rate l2' = LoanDetails.interest_rate l2
          ∧ match upd_notes data with
            | Some n => LoanDetails.notes l2' = n
            | None => True
            end) as (N1 & N2 & N).
  { subst l2'. by destruct (upd_notes data). }
  split; [|exact Hu].
  unfold apply_update.
  assert (match upd_fields data !! "monthly_payment" with
          | Some v => x ← py_float v;
                      Ok (with_amount x b1, with_monthly_payment x l3)
          | None => Ok (b1, l3)
          end = Ok (b1, l3)) as ->.
  { destruct (upd_fields data !! "monthly_payment") as [v|]; [|done].
    destruct G as [-> Ga]. simpl. do 2 f_equal.
    - rewrite <- Ga. apply with_amount_same.
    - replace (LoanDetails.monthly_payment l1)
        with (LoanDetails.monthly_payment l3) by congruence.
      apply with_monthly_payment_same. }
  simpl.
  assert (match upd_fields data !! "interest_rate" with
          | Some v => x ← py_float v; Ok (with_interest_rate x l3)
          | None => Ok l3
          end = Ok l3) as ->.
  { destruct (upd_fields data !! "interest_rate") as [v|]; [|done].
    rewrite F. simpl. f_equal.
    replace (LoanDetails.interest_rate l2)
      with (LoanDetails.interest_rate l3) by congruence.
    apply with_interest_rate_same. }
  simpl.
  assert (match upd_notes data with
          | Some n => with_notes n l3
          | None => l3
          end = l3) as ->.
  { destruct (upd_notes data) as [n|]; [|done].
    replace n with (LoanDetails.notes l3) by congruence.
    apply with_notes_same. }
  by rewrite (calculate_fixpoint _ _ H3).
Qed.

(** [update_loan_details] is idempotent: sending the same update again is
    answered 200 again and leaves the store as the first one left it. *)
Theorem update_loan_details_idempotent (s s1 : db) (u b : string)
    (data : loan_update) (bd : body) :
  update_loan_details s u b data = (s1, (200, bd)) →
  update_loan_details s1 u b data = (s1, (200, bd)).
Proof.
  unfold update_loan_details at 1.
  destruct (find_bill s b u) as [bill|] eqn:Hfind; [|intros [=]].
  destruct (loans s !! b) as [l|] eqn:Hl; [|intros [=]].
  destruct (apply_update bill l data) as [[bill' l']|e] eqn:Hu;
    [|intros [=]].
  intros [= <- <-].
  destruct (apply_update_again _ _ _ _ _ Hu) as (Hu' & Huser).
  unfold update_loan_details.
  assert (find_bill (mk_db (<[b := bill']> (bills s))
                           (<[b := l']> (loans s))) b u = Some bill') as ->.
  { revert Hfind. unfold find_bill. simpl. rewrite lookup_insert_eq.
    destruct (bills s !! b) as [bill0|]; [|done].
    case_bool_decide as Hc; [|done]. intros [= ->].
    by rewrite bool_decide_eq_true_2 by congruence. }
  simpl. rewrite lookup_insert_eq, Hu'.
  by rewrite !insert_insert_eq.
Qed.

Lemma update_loan_details_idempotent_witness :
  update_loan_details store_free "u1" "b1" (set_monthly 0)
  = (store_free, (200, Message "Loan details updated successfully")).
Proof.
  apply (update_loan_details_idempotent store1). vm_compute. reflexivity.
Defined.
